(** * authEdge: the request-authenticating edge handler of lambda-url-iam

    A shallow embedding of [src/lambda-edge/authEdge.js].  The handler is an
    [async] function that awaits four collaborators (the SSM client, the
    Cognito JWT verifier, the SigV4 signer and axios) and writes to the
    console.  It is embedded as a finite program tree [Prog] whose nodes are
    the awaited calls; [run] interprets a tree against an arbitrary, possibly
    stateful, [World] and records every call and every console line in a
    trace.  A rejected promise is [Threw]; the promise the handler returns to
    the Lambda runtime is the [result] of [run].

    Conventions.
    - The event has the shape CloudFront gives it: [Records] is an array,
      header values and body data are strings; the parts the handler
      dereferences without a test ([Records[0]], [origin], [origin.custom],
      the [content-type] header) may be missing, and reading through a missing
      part throws a [TypeError] as it does in JavaScript.
    - A JavaScript string is the Rocq [string] of its UTF-8 bytes, so that
      [Buffer.byteLength] is [String.length].
    - JavaScript built-ins whose algorithms are not part of the repository
      ([new URL], [Buffer.from(_, 'base64').toString('utf-8')],
      [JSON.stringify]) are variables of the section [Handler]; every theorem
      of the section [Properties] holds for all of them.  [Module Reference]
      instantiates them for the closed examples.
    - Every awaited call settles, and [console.error] returns: a collaborator
      that never answers is outside the model.
    - The CDK stack of the repository declares infrastructure only and is not
      embedded. *)

From Stdlib Require Import Ascii.
From stdpp Require Import base option list strings gmap pretty.

Set Default Proof Using "Type".

(** ** JavaScript values that cross the handler *)

Inductive Exn :=
| TypeError (message : string)      (* raised by the language itself *)
| ServiceError (message : string).  (* raised or rejected by a collaborator *)

Inductive Result (A : Type) :=
| Ok (a : A)
| Threw (e : Exn).
Arguments Ok {A} a.
Arguments Threw {A} e.

(** What axios hands back in [result.data]: parsed JSON, or a string. *)
#[local] Unset Elimination Schemes.
Inductive Json :=
| JNull
| JBool (b : bool)
| JNumber (n : Z)
| JString (s : string)
| JArray (items : list Json)
| JObject (members : list (string * Json)).
#[local] Set Elimination Schemes.

(** ** The inbound CloudFront event *)

Module Header.
Record t := { key : option string; value : string }.
End Header.

Module Body.
Record t := { data : string; encoding : string }.
End Body.

Module Origin.
Record custom_t := { domainName : string }.
Record t := { custom : option custom_t }.
End Origin.

Module CfRequest.
Record t := {
  method : string;
  uri : string;
  querystring : string;
  headers : gmap string (list Header.t);
  origin : option Origin.t;
  body : option Body.t
}.
End CfRequest.

Module Event.
Record cf_t := { request : CfRequest.t }.
Record record_t := { cf : cf_t }.
Record t := { Records : list record_t }.
End Event.

(** ** The outbound response *)

Module ProxyResponse.
Record t := { status : string; statusDescription : string; body : string }.
End ProxyResponse.

(** ** Objects exchanged with the collaborators *)

Module Ssm.
Record GetParameterCommand := { Name : string }.
Record Parameter_t := { Value : option string }.
Record GetParameterCommandOutput := { Parameter_ : option Parameter_t }.
End Ssm.

Module Cognito.
Record props := {
  userPoolId : option string;
  tokenUse : string;
  clientId : option string
}.
Record verifier := { created_from : props }.
End Cognito.

Module Url.
Record t := {
  href : string;
  protocol : string;
  host : string;
  hostname : string;
  pathname : string
}.
End Url.

Module HttpRequest.
Record t := {
  method : string;
  hostname : string;
  path : string;
  protocol : string;
  query : string;
  headers : gmap string string;
  body : option string
}.
End HttpRequest.

Module SigV4.
Record credentials_t := {
  accessKeyId : option string;
  secretAccessKey : option string;
  sessionToken : option string
}.
Record t := { service : string; region : string; credentials : credentials_t }.
End SigV4.

Module Axios.
(** [{ ...signed, url, timeout, data }] *)
Record config := {
  spread : HttpRequest.t;
  url : string;
  timeout : Z;
  data : option string
}.
Record response := { status : Z; data_of : Json }.
End Axios.

(** ** Awaited calls and program trees *)

Inductive Call :=
| ssmClient_send (command : Ssm.GetParameterCommand)
| CognitoJwtVerifier_create (props : Cognito.props)
| verifier_verify (verifier : Cognito.verifier) (token : option string)
| sigv4_sign (signer : SigV4.t) (request : HttpRequest.t)
| axios (config : Axios.config).

Definition Answer (c : Call) : Type :=
  match c with
  | ssmClient_send _ => Ssm.GetParameterCommandOutput
  | CognitoJwtVerifier_create _ => Cognito.verifier
  | verifier_verify _ _ => unit
  | sigv4_sign _ _ => HttpRequest.t
  | axios _ => Axios.response
  end.

Inductive Prog (A : Type) : Type :=
| Ret (a : A)
| Throw (e : Exn)
| Log (label : string) (e : Exn) (k : Prog A)          (* console.error(label, e) *)
| Invoke (c : Call) (k : Result (Answer c) -> Prog A). (* a call, then its settlement *)
Arguments Ret {A} a.
Arguments Throw {A} e.
Arguments Log {A} label e k.
Arguments Invoke {A} c k.

Fixpoint bind {A B} (p : Prog A) (f : A -> Prog B) : Prog B :=
  match p with
  | Ret a => f a
  | Throw e => Throw e
  | Log l e k => Log l e (bind k f)
  | Invoke c k => Invoke c (fun r => bind (k r) f)
  end.

Fixpoint try_catch {A} (p : Prog A) (h : Exn -> Prog A) : Prog A :=
  match p with
  | Ret a => Ret a
  | Throw e => h e
  | Log l e k => Log l e (try_catch k h)
  | Invoke c k => Invoke c (fun r => try_catch (k r) h)
  end.

Definition await (c : Call) : Prog (Answer c) :=
  Invoke c (fun r => match r with Ok a => Ret a | Threw e => Throw e end).

Definition lift {A} (r : Result A) : Prog A :=
  match r with Ok a => Ret a | Threw e => Throw e end.

Notation "'let*' x := p 'in' q" := (bind p (fun x => q))
  (at level 10, x name, p at level 100, q at level 200).

(** ** Interpretation against a world of collaborators *)

Definition World (S : Type) : Type := forall c : Call, S -> Result (Answer c) * S.

Inductive Obs :=
| ObsCall (c : Call) (r : Result (Answer c))
| ObsLog (label : string) (e : Exn).

Record Outcome (S A : Type) := {
  result : Result A;
  final : S;
  trace : list Obs
}.
Arguments result {S A} o.
Arguments final {S A} o.
Arguments trace {S A} o.

Definition seen {S A} (o : Obs) (out : Outcome S A) : Outcome S A :=
  {| result := result out; final := final out; trace := o :: trace out |}.

Fixpoint run {S A} (w : World S) (p : Prog A) (s : S) : Outcome S A :=
  match p with
  | Ret a => {| result := Ok a; final := s; trace := [] |}
  | Throw e => {| result := Threw e; final := s; trace := [] |}
  | Log l e k => seen (ObsLog l e) (run w k s)
  | Invoke c k => seen (ObsCall c (w c s).1) (run w (k (w c s).1) (w c s).2)
  end.

(** ** Built-ins with a direct model *)

(** [s.split(' ')]: the pieces of [s] between single spaces. *)
Fixpoint split_space (s : string) : list string :=
  match s with
  | EmptyString => [EmptyString]
  | String c rest =>
      if Ascii.eqb c " "%char then EmptyString :: split_space rest
      else match split_space rest with
           | [] => [String c EmptyString]
           | piece :: pieces => String c piece :: pieces
           end
  end.

Definition startsWith (s pre : string) : bool := String.prefix pre s.

Definition Buffer_byteLength (s : string) : nat := String.length s.

Definition Number_toString (n : nat) : string := pretty n.

(** JavaScript truthiness of a string. *)
Definition truthy (s : string) : bool :=
  match s with EmptyString => false | _ => true end.

(** ** Module scope (lines 7-31)

    The three credentials are destructured from [process.env] and the signer
    is constructed from them when the module is loaded, once per process. *)

Record ModuleScope := {
  AWS_ACCESS_KEY_ID : option string;
  AWS_SECRET_ACCESS_KEY : option string;
  AWS_SESSION_TOKEN : option string;
  sigv4 : SigV4.t
}.

Definition credentials_of (process_env : gmap string string) : SigV4.credentials_t :=
  {| SigV4.accessKeyId := process_env !! "AWS_ACCESS_KEY_ID";
     SigV4.secretAccessKey := process_env !! "AWS_SECRET_ACCESS_KEY";
     SigV4.sessionToken := process_env !! "AWS_SESSION_TOKEN" |}.

Definition load_module (process_env : gmap string string) : ModuleScope :=
  let AWS_ACCESS_KEY_ID := process_env !! "AWS_ACCESS_KEY_ID" in
  let AWS_SECRET_ACCESS_KEY := process_env !! "AWS_SECRET_ACCESS_KEY" in
  let AWS_SESSION_TOKEN := process_env !! "AWS_SESSION_TOKEN" in
  {| AWS_ACCESS_KEY_ID := AWS_ACCESS_KEY_ID;
     AWS_SECRET_ACCESS_KEY := AWS_SECRET_ACCESS_KEY;
     AWS_SESSION_TOKEN := AWS_SESSION_TOKEN;
     sigv4 := {| SigV4.service := "lambda";
                 SigV4.region := "eu-central-1";
                 SigV4.credentials :=
                   {| SigV4.accessKeyId := AWS_ACCESS_KEY_ID;
                      SigV4.secretAccessKey := AWS_SECRET_ACCESS_KEY;
                      SigV4.sessionToken := AWS_SESSION_TOKEN |} |} |}.

(** ** The three response shapes *)

Definition Forbidden : ProxyResponse.t :=
  {| ProxyResponse.status := "403";
     ProxyResponse.statusDescription := "Forbidden";
     ProxyResponse.body := "Unauthorized" |}.

Definition InternalServerError : ProxyResponse.t :=
  {| ProxyResponse.status := "500";
     ProxyResponse.statusDescription := "Internal Server Error";
     ProxyResponse.body := "Internal Server Error" |}.

Definition OK (body : string) : ProxyResponse.t :=
  {| ProxyResponse.status := "200";
     ProxyResponse.statusDescription := "OK";
     ProxyResponse.body := body |}.

(** ** getParameter (lines 16-20) *)

Definition undefined_property (name : string) : Exn :=
  TypeError ("Cannot read properties of undefined (reading '" +:+ name +:+ "')").

Definition getParameter (name : string) : Prog (option string) :=
  let* response := await (ssmClient_send {| Ssm.Name := name |}) in
  match Ssm.Parameter_ response with
  | None => Throw (undefined_property "Value")
  | Some parameter => Ret (Ssm.Value parameter)
  end.

(** ** The guard on the authorization header (line 40) *)

Definition auth_guard (authHeader : option (list Header.t)) : bool :=
  match authHeader with
  | None => true                                        (* !authHeader *)
  | Some values =>
      match values !! 0%nat with
      | None => true                                    (* !authHeader[0] *)
      | Some first => negb (startsWith (Header.value first) "Bearer ")
      end
  end.

(** [authHeader[0].value], as line 48 reads it again. *)
Definition first_value (header : option (list Header.t)) : Result string :=
  match header with
  | None => Threw (undefined_property "0")
  | Some values =>
      match values !! 0%nat with
      | None => Threw (undefined_property "value")
      | Some first => Ok (Header.value first)
      end
  end.

(** [cfRequest.origin.custom.domainName] (line 71). *)
Definition domainName_of (cfRequest : CfRequest.t) : Result string :=
  match CfRequest.origin cfRequest with
  | None => Threw (undefined_property "custom")
  | Some origin =>
      match Origin.custom origin with
      | None => Threw (undefined_property "domainName")
      | Some custom => Ok (Origin.domainName custom)
      end
  end.

(** The body test of line 98: [cfRequest.body && cfRequest.body.data]. *)
Definition has_body (cfRequest : CfRequest.t) : bool :=
  match CfRequest.body cfRequest with
  | None => false
  | Some body => truthy (Body.data body)
  end.

(** ** The hosting process

    The runtime loads the module once, at cold start, and then calls the
    exported handler for every event; the environment of the process can
    change while it stays warm. *)

Record Process := {
  process_env : gmap string string;
  module_scope : ModuleScope
}.

Definition cold_start (env : gmap string string) : Process :=
  {| process_env := env; module_scope := load_module env |}.

Definition setenv (env : gmap string string) (p : Process) : Process :=
  {| process_env := env; module_scope := module_scope p |}.

Definition request_of (event : Event.t) : option CfRequest.t :=
  (λ record, Event.request (Event.cf record)) <$> Event.Records event !! 0%nat.

Definition event_of (cfRequest : CfRequest.t) : Event.t :=
  {| Event.Records := [ {| Event.cf := {| Event.request := cfRequest |} |} ] |}.

Section Handler.

Variable URL_new : string -> Result Url.t.
Variable Buffer_from_base64_toString_utf8 : string -> string.
Variable JSON_stringify : Json -> string.

(** Lines 98-106.  [body] is a string on both branches of the encoding
    test, so the [typeof] test of line 104 selects [body] itself. *)
Definition with_body (cfRequest : CfRequest.t) (signV4Options : HttpRequest.t)
  : HttpRequest.t :=
  match CfRequest.body cfRequest with
  | None => signV4Options
  | Some cf_body =>
      if truthy (Body.data cf_body) then
        let body :=
          if String.eqb (Body.encoding cf_body) "base64"
          then Buffer_from_base64_toString_utf8 (Body.data cf_body)
          else Body.data cf_body in
        {| HttpRequest.method := HttpRequest.method signV4Options;
           HttpRequest.hostname := HttpRequest.hostname signV4Options;
           HttpRequest.path := HttpRequest.path signV4Options;
           HttpRequest.protocol := HttpRequest.protocol signV4Options;
           HttpRequest.query := HttpRequest.query signV4Options;
           HttpRequest.headers :=
             <["Content-Length" := Number_toString (Buffer_byteLength body)]>
               (HttpRequest.headers signV4Options);
           HttpRequest.body := Some body |}
      else signV4Options
  end.

(** Lines 97-121. *)
Definition signAndForwardRequest (m : ModuleScope) (cfRequest : CfRequest.t)
    (signV4Options : HttpRequest.t) (apiUrl : Url.t) : Prog ProxyResponse.t :=
  let signV4Options := with_body cfRequest signV4Options in
  let* signed := await (sigv4_sign (sigv4 m) signV4Options) in
  let* result := await (axios {| Axios.spread := signed;
                                 Axios.url := Url.href apiUrl;
                                 Axios.timeout := 5000;
                                 Axios.data := HttpRequest.body signV4Options |}) in
  Ret (OK (JSON_stringify (Axios.data_of result))).

(** Lines 52-61, the body of the first [try]. *)
Definition verification (token : option string) : Prog unit :=
  let* COGNITO_USER_POOL_ID := getParameter "/publisher/user-pool-id" in
  let* COGNITO_CLIENT_ID := getParameter "/publisher/user-pool-client-id" in
  let* verifier := await (CognitoJwtVerifier_create
                            {| Cognito.userPoolId := COGNITO_USER_POOL_ID;
                               Cognito.tokenUse := "id";
                               Cognito.clientId := COGNITO_CLIENT_ID |}) in
  await (verifier_verify verifier token).

(** Lines 51-69: [None] when the [try] block completes, the 403 response
    when the [catch] clause returns. *)
Definition verify_token (token : option string) : Prog (option ProxyResponse.t) :=
  try_catch
    (let* _ := verification token in Ret None)
    (fun err => Log "Token verification failed:" err (Ret (Some Forbidden))).

(** Lines 71-83. *)
Definition signing_options (cfRequest : CfRequest.t) (apiUrl : Url.t)
    (contentType : string) : HttpRequest.t :=
  {| HttpRequest.method := CfRequest.method cfRequest;
     HttpRequest.hostname := Url.host apiUrl;
     HttpRequest.path :=
       Url.pathname apiUrl +:+
       (if truthy (CfRequest.querystring cfRequest)
        then "?" +:+ CfRequest.querystring cfRequest else "");
     HttpRequest.protocol := Url.protocol apiUrl;
     HttpRequest.query := CfRequest.querystring cfRequest;
     HttpRequest.headers :=
       <["host" := Url.hostname apiUrl]> {["Content-Type" := contentType]};
     HttpRequest.body := None |}.

(** Lines 36-95, from the request record on. *)
Definition handle (m : ModuleScope) (cfRequest : CfRequest.t) : Prog ProxyResponse.t :=
  let headers := CfRequest.headers cfRequest in
  let authHeader := headers !! "authorization" in
  if auth_guard authHeader then Ret Forbidden
  else
    let* value := lift (first_value authHeader) in
    let token := split_space value !! 1%nat in
    let* rejected := verify_token token in
    match rejected with
    | Some response => Ret response
    | None =>
        let* domainName := lift (domainName_of cfRequest) in
        let* apiUrl := lift (URL_new ("https://" +:+ domainName +:+ CfRequest.uri cfRequest)) in
        let* contentType := lift (first_value (headers !! "content-type")) in
        let signV4Options := signing_options cfRequest apiUrl contentType in
        try_catch
          (signAndForwardRequest m cfRequest signV4Options apiUrl)
          (fun error => Log "An error occurred" error (Ret InternalServerError))
    end.

(** Lines 33-95. *)
Definition handler (m : ModuleScope) (event : Event.t) : Prog ProxyResponse.t :=
  match Event.Records event !! 0%nat with
  | None => Throw (undefined_property "cf")
  | Some record => handle m (Event.request (Event.cf record))
  end.

(** One invocation in the warm process [p]. *)
Definition invoke (p : Process) (event : Event.t) : Prog ProxyResponse.t :=
  handler (module_scope p) event.

(** Two consecutive invocations in the same process, against the same world:
    the second starts in the state the first one left. *)
Definition consecutive {S} (w : World S) (p : Process) (first second : Event.t)
    (s : S) : list Obs :=
  let out := run w (invoke p first) s in
  trace out ++ trace (run w (invoke p second) (final out)).

End Handler.

(** ** What a trace shows *)

Definition fetch_of (o : Obs) : option string :=
  match o with
  | ObsCall (ssmClient_send command) _ => Some (Ssm.Name command)
  | _ => None
  end.

Definition signing_of (o : Obs)
  : option (SigV4.t * HttpRequest.t * Result HttpRequest.t) :=
  match o with
  | ObsCall (sigv4_sign signer request) r => Some (signer, request, r)
  | _ => None
  end.

Definition dispatch_of (o : Obs) : option (Axios.config * Result Axios.response) :=
  match o with
  | ObsCall (axios config) r => Some (config, r)
  | _ => None
  end.

Definition log_of (o : Obs) : option (string * Exn) :=
  match o with
  | ObsLog label e => Some (label, e)
  | _ => None
  end.

(** The parameter names requested from the store, in order. *)
Definition fetches (t : list Obs) : list string := omap fetch_of t.
(** The signing calls: signer, request to sign, settlement. *)
Definition signings (t : list Obs) := omap signing_of t.
(** The requests handed to axios, with their settlement. *)
Definition dispatches (t : list Obs) := omap dispatch_of t.
(** The console lines. *)
Definition logs (t : list Obs) : list (string * Exn) := omap log_of t.

Definition fetch_count (name : string) (t : list Obs) : nat :=
  length (filter (λ n, n = name) (fetches t)).

(** Running [out] after the trace [t]. *)
Definition after {S A} (t : list Obs) (out : Outcome S A) : Outcome S A :=
  {| result := result out; final := final out; trace := t ++ trace out |}.

(** ** Vocabulary of the specification *)

(** The header is present, has a first value, and that value starts with the
    literal prefix. *)
Definition well_formed_bearer (cfRequest : CfRequest.t) : Prop :=
  exists first rest,
    CfRequest.headers cfRequest !! "authorization" = Some (first :: rest) /\
    startsWith (Header.value first) "Bearer " = true.

(** The header is absent, has no values, or its first value lacks the prefix. *)
Definition missing_or_malformed_credential (cfRequest : CfRequest.t) : Prop :=
  CfRequest.headers cfRequest !! "authorization" = None \/
  CfRequest.headers cfRequest !! "authorization" = Some [] \/
  exists first rest,
    CfRequest.headers cfRequest !! "authorization" = Some (first :: rest) /\
    startsWith (Header.value first) "Bearer " = false.

(** The bearer token of line 48. *)
Definition token_of (cfRequest : CfRequest.t) : option string :=
  match first_value (CfRequest.headers cfRequest !! "authorization") with
  | Ok value => split_space value !! 1%nat
  | Threw _ => None
  end.

(** ** More of what a trace shows *)

Definition fetch_answer_of (o : Obs)
  : option (string * Result Ssm.GetParameterCommandOutput) :=
  match o with
  | ObsCall (ssmClient_send command) r => Some (Ssm.Name command, r)
  | _ => None
  end.

Definition creation_of (o : Obs) : option (Cognito.props * Result Cognito.verifier) :=
  match o with
  | ObsCall (CognitoJwtVerifier_create props) r => Some (props, r)
  | _ => None
  end.

Definition verify_of (o : Obs)
  : option (Cognito.verifier * option string * Result unit) :=
  match o with
  | ObsCall (verifier_verify verifier token) r => Some (verifier, token, r)
  | _ => None
  end.

(** The requests to the parameter store with their answers. *)
Definition fetch_answers (t : list Obs) := omap fetch_answer_of t.
(** The verifiers asked for: properties, settlement. *)
Definition creations (t : list Obs) := omap creation_of t.
(** The calls to [verify]: verifier, token, settlement. *)
Definition verifications (t : list Obs) := omap verify_of t.







(** ** axios in front of an origin

    The call of lines 109-114 gives axios no [validateStatus], so axios
    applies its default: the promise resolves with the response when the
    status of the response is from 200 to 299, and is rejected for every
    other status; it is rejected too when no response arrives (timeout,
    refused connection, unknown host). *)

Inductive OriginAnswer :=
| HttpResponse (response : Axios.response)
| NoResponse (e : Exn).

Definition validateStatus (status : Z) : bool :=
  (200 <=? status)%Z && (status <? 300)%Z.

Definition axios_settles (answer : OriginAnswer) : Result Axios.response :=
  match answer with
  | HttpResponse response =>
      if validateStatus (Axios.status response) then Ok response
      else Threw (ServiceError ("Request failed with status code "
                                +:+ pretty (Axios.status response)))
  | NoResponse e => Threw e
  end.

(** The world [w] with its axios replaced by axios in front of [origin]. *)
Definition with_origin {S} (w : World S) (origin : Axios.config -> OriginAnswer)
  : World S := λ c,
  match c return S -> Result (Answer c) * S with
  | axios config => λ s, (axios_settles (origin config), s)
  | c' => w c'
  end.

(** ** Strings *)

(** [s.split(sep)] for a separator of one character. *)
Fixpoint split_on (sep : ascii) (s : string) : list string :=
  match s with
  | EmptyString => [EmptyString]
  | String c rest =>
      if Ascii.eqb c sep then EmptyString :: split_on sep rest
      else match split_on sep rest with
           | [] => [String c EmptyString]
           | piece :: pieces => String c piece :: pieces
           end
  end.

(** The number of occurrences of [c] in [s]. *)
Fixpoint occurrences (c : ascii) (s : string) : nat :=
  match s with
  | EmptyString => 0
  | String c' rest => (if Ascii.eqb c' c then 1 else 0) + occurrences c rest
  end.

(** ** The CDK stack (the file next to [lambda-edge])

    Only what the stack computes or names that the handler meets again at run
    time: the domain name it gives the CloudFront origin, and the names under
    which it stores the pool id and the client id. *)

Module Stack.

(** [cdk.Fn.split(delimiter, source)], for a delimiter of one character. *)
Definition Fn_split (delimiter : ascii) (source : string) : list string :=
  split_on delimiter source.

(** [cdk.Fn.select(index, array)]; there is no value when the index is out of
    range (CloudFormation refuses the template). *)
Definition Fn_select (index : nat) (array : list string) : option string :=
  array !! index.

(** Lines 139-141. *)
Definition getURLDomain (url : string) : option string :=
  Fn_select 2 (Fn_split "/"%char url).

(** Lines 100-108: the names of the two parameters the stack creates, which
    are also the only ones the edge function is allowed to read (lines
    110-117). *)
Definition parameterNames : list string :=
  [ "/lambda-url-iam/user-pool-id"; "/lambda-url-iam/user-pool-client-id" ].

End Stack.

(** ** A reference platform and a stubbed world

    Concrete instances of the section variables and of the collaborators,
    used to evaluate the handler on explicit events. *)

Module Reference.

(** *** Built-ins *)

Fixpoint span (stop : ascii -> bool) (s : string) : string * string :=
  match s with
  | EmptyString => (EmptyString, EmptyString)
  | String c rest =>
      if stop c then (EmptyString, s)
      else let found := span stop rest in (String c found.1, found.2)
  end.

Fixpoint skip (n : nat) (s : string) : string :=
  match n, s with
  | S n', String _ rest => skip n' rest
  | _, _ => s
  end.

Definition one_of (stops : string) (c : ascii) : bool :=
  existsb (Ascii.eqb c) (String.list_ascii_of_string stops).

(** [new URL(s)] for [s = "https://" host [path] [?query] [#fragment]] with
    a host and a path that the URL parser leaves as they are. *)
Definition URL_new (s : string) : Result Url.t :=
  if String.prefix "https://" s then
    let authority := span (one_of "/?#") (skip 8 s) in
    let path := span (one_of "?#") authority.2 in
    let pathname := if truthy path.1 then path.1 else "/" in
    if truthy authority.1 then
      Ok {| Url.href := "https://" +:+ authority.1 +:+ pathname +:+ path.2;
            Url.protocol := "https:";
            Url.host := authority.1;
            Url.hostname := (span (one_of ":") authority.1).1;
            Url.pathname := pathname |}
    else Threw (TypeError "Invalid URL")
  else Threw (TypeError "Invalid URL").

(** The value of a base64 digit; both alphabets are accepted. *)
Definition sextet (c : ascii) : option N :=
  let n := N_of_ascii c in
  if (65 <=? n)%N && (n <=? 90)%N then Some (n - 65)%N
  else if (97 <=? n)%N && (n <=? 122)%N then Some (n - 71)%N
  else if (48 <=? n)%N && (n <=? 57)%N then Some (n + 4)%N
  else if (n =? 43)%N || (n =? 45)%N then Some 62%N
  else if (n =? 47)%N || (n =? 95)%N then Some 63%N
  else None.

(** Digits up to the first padding sign; other characters are skipped. *)
Fixpoint sextets (s : string) : list N :=
  match s with
  | EmptyString => []
  | String c rest =>
      if Ascii.eqb c "="%char then []
      else match sextet c with
           | Some v => v :: sextets rest
           | None => sextets rest
           end
  end.

Fixpoint octets (digits : list N) : string :=
  match digits with
  | a :: b :: c :: d :: rest =>
      String (ascii_of_N (a * 4 + b / 16))
        (String (ascii_of_N (b mod 16 * 16 + c / 4))
           (String (ascii_of_N (c mod 4 * 64 + d)) (octets rest)))
  | [a; b; c] =>
      String (ascii_of_N (a * 4 + b / 16))
        (String (ascii_of_N (b mod 16 * 16 + c / 4)) EmptyString)
  | [a; b] => String (ascii_of_N (a * 4 + b / 16)) EmptyString
  | _ => EmptyString
  end.

(** [Buffer.from(s, 'base64').toString('utf-8')] on data whose bytes are
    well-formed UTF-8. *)
Definition Buffer_from_base64_toString_utf8 (s : string) : string :=
  octets (sextets s).

(** The base64 digit of a value below 64, standard alphabet. *)
Definition digit (v : N) : ascii :=
  ascii_of_N (if (v <? 26)%N then v + 65
              else if (v <? 52)%N then v + 71
              else if (v <? 62)%N then v - 4
              else if (v =? 62)%N then 43 else 47)%N.

(** [Buffer.from(s, 'utf-8').toString('base64')]: what a client does to put
    the text [s] in a body tagged base64. *)
Fixpoint toString_base64 (s : string) : string :=
  match s with
  | String x (String y (String z rest)) =>
      let x := N_of_ascii x in
      let y := N_of_ascii y in
      let z := N_of_ascii z in
      String (digit (x / 4))
        (String (digit (x mod 4 * 16 + y / 16))
           (String (digit (y mod 16 * 4 + z / 64))
              (String (digit (z mod 64)) (toString_base64 rest))))%N
  | String x (String y EmptyString) =>
      let x := N_of_ascii x in
      let y := N_of_ascii y in
      String (digit (x / 4))
        (String (digit (x mod 4 * 16 + y / 16))
           (String (digit (y mod 16 * 4)) "="))%N
  | String x EmptyString =>
      let x := N_of_ascii x in
      String (digit (x / 4)) (String (digit (x mod 4 * 16)) "==")%N
  | EmptyString => EmptyString
  end.

Definition quoted (s : string) : string :=
  String "034"%char (s +:+ String "034"%char EmptyString).

(** [JSON.stringify] on values whose strings need no escape. *)
Fixpoint JSON_stringify (j : Json) : string :=
  match j with
  | JNull => "null"
  | JBool b => if b then "true" else "false"
  | JNumber n => pretty n
  | JString s => quoted s
  | JArray items => "[" +:+ String.concat "," (map JSON_stringify items) +:+ "]"
  | JObject members =>
      "{" +:+ String.concat ","
                (map (λ kv, quoted kv.1 +:+ ":" +:+ JSON_stringify kv.2) members)
      +:+ "}"
  end.

(** *** Collaborators

    The state counts the requests that reached the parameter store. *)

Definition parameter_store (name : string) : Result Ssm.GetParameterCommandOutput :=
  if String.eqb name "/publisher/user-pool-id" then
    Ok {| Ssm.Parameter_ := Some {| Ssm.Value := Some "eu-central-1_Pool" |} |}
  else if String.eqb name "/publisher/user-pool-client-id" then
    Ok {| Ssm.Parameter_ := Some {| Ssm.Value := Some "client-1" |} |}
  else Threw (ServiceError "ParameterNotFound").

Definition signed_by (signer : SigV4.t) (request : HttpRequest.t) : HttpRequest.t :=
  {| HttpRequest.method := HttpRequest.method request;
     HttpRequest.hostname := HttpRequest.hostname request;
     HttpRequest.path := HttpRequest.path request;
     HttpRequest.protocol := HttpRequest.protocol request;
     HttpRequest.query := HttpRequest.query request;
     HttpRequest.headers :=
       <["authorization" :=
           "AWS4-HMAC-SHA256 Credential=" +:+
           default "" (SigV4.accessKeyId (SigV4.credentials signer))]>
         (HttpRequest.headers request);
     HttpRequest.body := HttpRequest.body request |}.

Definition world : World nat := λ c,
  match c return nat -> Result (Answer c) * nat with
  | ssmClient_send command => λ served, (parameter_store (Ssm.Name command), S served)
  | CognitoJwtVerifier_create props => λ served,
      (Ok {| Cognito.created_from := props |}, served)
  | verifier_verify _ token => λ served,
      (match token with
       | Some jwt => if String.eqb jwt "good.jwt" then Ok tt
                     else Threw (ServiceError "JwtInvalidSignatureError")
       | None => Threw (ServiceError "JwtParseError")
       end, served)
  | sigv4_sign signer request => λ served, (Ok (signed_by signer request), served)
  | axios config => λ served,
      (if String.prefix "https://down." (Axios.url config)
       then Threw (ServiceError "ECONNREFUSED")
       else Ok {| Axios.status := 200; Axios.data_of := JObject [("ok", JBool true)] |},
       served)
  end.

(** *** Events *)

Definition bearer (token : string) : list Header.t :=
  [ {| Header.key := Some "Authorization"; Header.value := "Bearer " +:+ token |} ].

Definition json_type : list Header.t :=
  [ {| Header.key := Some "Content-Type"; Header.value := "application/json" |} ].

Definition to (domain : string) : option Origin.t :=
  Some {| Origin.custom := Some {| Origin.domainName := domain |} |}.

(** [GET /items?a=1] with a valid token and a content type. *)
Definition get_items : CfRequest.t :=
  {| CfRequest.method := "GET";
     CfRequest.uri := "/items";
     CfRequest.querystring := "a=1";
     CfRequest.headers :=
       <["content-type" := json_type]> {["authorization" := bearer "good.jwt"]};
     CfRequest.origin := to "abc.lambda-url.eu-central-1.on.aws";
     CfRequest.body := None |}.

(** The same [GET], as a browser or [curl] sends it: no content type. *)
Definition get_plain : CfRequest.t :=
  {| CfRequest.method := "GET";
     CfRequest.uri := "/items";
     CfRequest.querystring := "";
     CfRequest.headers := {["authorization" := bearer "good.jwt"]};
     CfRequest.origin := to "abc.lambda-url.eu-central-1.on.aws";
     CfRequest.body := None |}.

(** A [GET] without credentials. *)
Definition anonymous : CfRequest.t :=
{| CfRequest.method := "GET";
   CfRequest.uri := "/items";
   CfRequest.querystring := "";
   CfRequest.headers := {["content-type" := json_type]};
   CfRequest.origin := to "abc.lambda-url.eu-central-1.on.aws";
   CfRequest.body := None |}.

(** A [GET] with a token that the verifier refuses. *)
Definition forged : CfRequest.t :=
{| CfRequest.method := "GET";
   CfRequest.uri := "/items";
   CfRequest.querystring := "";
   CfRequest.headers :=
     <["content-type" := json_type]> {["authorization" := bearer "bad.jwt"]};
   CfRequest.origin := to "abc.lambda-url.eu-central-1.on.aws";
   CfRequest.body := None |}.

(** A [GET] to an origin that refuses the connection. *)
Definition get_down : CfRequest.t :=
{| CfRequest.method := "GET";
   CfRequest.uri := "/items";
   CfRequest.querystring := "";
   CfRequest.headers :=
     <["content-type" := json_type]> {["authorization" := bearer "good.jwt"]};
   CfRequest.origin := to "down.lambda-url.eu-central-1.on.aws";
   CfRequest.body := None |}.

(** A [POST] whose body is the base64 text of a JSON object with one member,
  [a], of value 1 (seven bytes). *)
Definition post_item : CfRequest.t :=
{| CfRequest.method := "POST";
   CfRequest.uri := "/items";
   CfRequest.querystring := "";
   CfRequest.headers :=
     <["content-type" := json_type]> {["authorization" := bearer "good.jwt"]};
   CfRequest.origin := to "abc.lambda-url.eu-central-1.on.aws";
   CfRequest.body := Some {| Body.data := "eyJhIjoxfQ=="; Body.encoding := "base64" |} |}.

Definition env_at_load : gmap string string :=
  <["AWS_SESSION_TOKEN" := "token-1"]>
    (<["AWS_SECRET_ACCESS_KEY" := "secret-1"]> {["AWS_ACCESS_KEY_ID" := "AKIA1"]}).

Definition env_rotated : gmap string string :=
  <["AWS_SESSION_TOKEN" := "token-2"]>
    (<["AWS_SECRET_ACCESS_KEY" := "secret-2"]> {["AWS_ACCESS_KEY_ID" := "AKIA2"]}).

Definition handler : ModuleScope -> Event.t -> Prog ProxyResponse.t :=
  handler URL_new Buffer_from_base64_toString_utf8 JSON_stringify.

Definition invoke : Process -> Event.t -> Prog ProxyResponse.t :=
  invoke URL_new Buffer_from_base64_toString_utf8 JSON_stringify.

Definition consecutive : Process -> Event.t -> Event.t -> nat -> list Obs :=
  consecutive URL_new Buffer_from_base64_toString_utf8 JSON_stringify world.

(** The module scope of the examples: loaded with the first credentials. *)
Definition loaded : ModuleScope := load_module env_at_load.

Definition text_type : list Header.t :=
  [ {| Header.key := Some "Content-Type"; Header.value := "text/plain" |} ].

(** A [POST] of plain text, with an encoding tag that is not [base64]. *)
Definition post_text : CfRequest.t :=
  {| CfRequest.method := "POST";
     CfRequest.uri := "/items";
     CfRequest.querystring := "";
     CfRequest.headers :=
       <["content-type" := text_type]> {["authorization" := bearer "good.jwt"]};
     CfRequest.origin := to "abc.lambda-url.eu-central-1.on.aws";
     CfRequest.body := Some {| Body.data := "hello"; Body.encoding := "text" |} |}.

(** [get_items] as a browser sends it: more headers, and a second value for
    each of the two headers the handler reads. *)
Definition get_items_with_cookie : CfRequest.t :=
  {| CfRequest.method := "GET";
     CfRequest.uri := "/items";
     CfRequest.querystring := "a=1";
     CfRequest.headers :=
       <["cookie" := [ {| Header.key := Some "Cookie"; Header.value := "session=1" |} ]]>
         (<["content-type" := json_type ++ json_type]>
            {["authorization" := bearer "good.jwt" ++ bearer "bad.jwt"]});
     CfRequest.origin := to "abc.lambda-url.eu-central-1.on.aws";
     CfRequest.body := None |}.

(** [get_items] with another header value that carries the same token. *)
Definition get_items_with_comment : CfRequest.t :=
  {| CfRequest.method := "GET";
     CfRequest.uri := "/items";
     CfRequest.querystring := "a=1";
     CfRequest.headers :=
       <["content-type" := json_type]>
         {["authorization" := bearer "good.jwt issued today"]};
     CfRequest.origin := to "abc.lambda-url.eu-central-1.on.aws";
     CfRequest.body := None |}.

(** An origin that has the item, and one that has not. *)
Definition origin_found (config : Axios.config) : OriginAnswer :=
  HttpResponse {| Axios.status := 200;
                  Axios.data_of := JObject [("id", JNumber 1)] |}.

Definition origin_not_found (config : Axios.config) : OriginAnswer :=
  HttpResponse {| Axios.status := 404;
                  Axios.data_of := JObject [("message", JString "Not Found")] |}.

(** The world with a signer that rejects every request. *)
Definition world_without_signer : World nat := λ c,
  match c return nat -> Result (Answer c) * nat with
  | sigv4_sign _ _ => λ served, (Threw (ServiceError "CredentialsProviderError"), served)
  | c' => world c'
  end.

(** The world whose parameter store holds what the stack stored and nothing
    else. *)
Definition world_as_deployed : World nat := λ c,
  match c return nat -> Result (Answer c) * nat with
  | ssmClient_send command => λ served,
      (if bool_decide (Ssm.Name command ∈ Stack.parameterNames)
       then Ok {| Ssm.Parameter_ := Some {| Ssm.Value := Some "stored" |} |}
       else Threw (ServiceError "ParameterNotFound"), S served)
  | c' => world c'
  end.

End Reference.



(** ** Proof automation *)

(** Symbolic execution of a program tree against an arbitrary world: case
    analysis on each settlement and on each test the tree performs. *)
Ltac settle w :=
  match goal with
  | |- context [w ?c ?s] =>
      let E := fresh "E" in destruct (w c s) as [[?|?] ?] eqn:E; cbn in *
  end.

Ltac branch :=
  match goal with
  | |- context [match ?x with _ => _ end] => destruct x eqn:?; cbn in *
  end.

Ltac exec w := cbn in *; repeat first [settle w | branch].

Ltac one_element :=
  rewrite ?elem_of_nil, ?list_elem_of_singleton; intros; simplify_eq.

#[local] Arguments auth_guard : simpl never.
#[local] Arguments first_value : simpl never.
#[local] Arguments domainName_of : simpl never.
#[local] Arguments with_body : simpl never.
#[local] Arguments signing_options : simpl never.

Ltac unfold_handle := unfold handle.
Ltac unfold_with_body := unfold has_body, with_body.
Ltac unfold_invoke := unfold consecutive, invoke.

Ltac unfold_handler :=
  unfold handler, handle, verify_token, verification, signAndForwardRequest,
    getParameter, await, lift.

(** ** Laws of [run] *)

Lemma after_nil {S A} (out : Outcome S A) : after [] out = out.
Proof. by destruct out. Qed.

Lemma run_bind {S A B} (w : World S) (p : Prog A) (f : A -> Prog B) (s : S) :
  run w (bind p f) s =
  match result (run w p s) with
  | Ok a => after (trace (run w p s)) (run w (f a) (final (run w p s)))
  | Threw e => {| result := Threw e; final := final (run w p s);
                  trace := trace (run w p s) |}
  end.
Proof.
  revert s. induction p as [a|e|l e k IH|c k IH]; intros s; cbn.
  - by rewrite after_nil.
  - done.
  - rewrite IH. by destruct (result (run w k s)).
  - rewrite IH. by destruct (result (run w (k (w c s).1) (w c s).2)).
Qed.

Lemma run_try_catch {S A} (w : World S) (p : Prog A) (h : Exn -> Prog A) (s : S) :
  run w (try_catch p h) s =
  match result (run w p s) with
  | Ok a => run w p s
  | Threw e => after (trace (run w p s)) (run w (h e) (final (run w p s)))
  end.
Proof.
  revert s. induction p as [a|e|l e k IH|c k IH]; intros s; cbn.
  - done.
  - by rewrite after_nil.
  - rewrite IH. by destruct (result (run w k s)).
  - rewrite IH. by destruct (result (run w (k (w c s).1) (w c s).2)).
Qed.

Lemma handler_handle URL_new decode stringify m event cfRequest :
  request_of event = Some cfRequest ->
  handler URL_new decode stringify m event = handle URL_new decode stringify m cfRequest.
Proof.
  unfold request_of, handler. destruct (Event.Records event !! 0%nat); cbn; congruence.
Qed.

(** ** The guard and the vocabulary of the specification *)

Lemma append_empty (s : string) : s +:+ "" = s.
Proof.
  induction s as [|c s IH]; [done|].
  change (String c (s +:+ "") = String c s). by rewrite IH.
Qed.

Lemma auth_guard_true cfRequest :
  auth_guard (CfRequest.headers cfRequest !! "authorization") = true <->
  missing_or_malformed_credential cfRequest.
Proof.
  unfold auth_guard, missing_or_malformed_credential.
  destruct (CfRequest.headers cfRequest !! "authorization") as [[|first rest]|]; cbn.
  - split; [auto|done].
  - rewrite negb_true_iff. split; [eauto 6|].
    intros [|[|(? & ? & ? & ?)]]; congruence.
  - split; [auto|done].
Qed.

Lemma auth_guard_false cfRequest :
  auth_guard (CfRequest.headers cfRequest !! "authorization") = false <->
  well_formed_bearer cfRequest.
Proof.
  unfold auth_guard, well_formed_bearer.
  destruct (CfRequest.headers cfRequest !! "authorization") as [[|first rest]|]; cbn.
  - split; [done|]. by intros (? & ? & ? & ?).
  - rewrite negb_false_iff. split; [eauto|]. intros (? & ? & ? & ?). congruence.
  - split; [done|]. by intros (? & ? & ? & ?).
Qed.

Lemma well_formed_first_value cfRequest :
  well_formed_bearer cfRequest ->
  exists value, first_value (CfRequest.headers cfRequest !! "authorization") = Ok value.
Proof. intros (first & rest & -> & _). cbn. eauto. Qed.

Section Properties.

Variable URL_new : string -> Result Url.t.
Variable Buffer_from_base64_toString_utf8 : string -> string.
Variable JSON_stringify : Json -> string.

Context {S : Type} (w : World S).

Abbreviation handler := (handler URL_new Buffer_from_base64_toString_utf8 JSON_stringify).
Abbreviation handle := (handle URL_new Buffer_from_base64_toString_utf8 JSON_stringify).
Abbreviation with_body := (with_body Buffer_from_base64_toString_utf8).
Abbreviation invoke := (invoke URL_new Buffer_from_base64_toString_utf8 JSON_stringify).
Abbreviation consecutive :=
  (consecutive URL_new Buffer_from_base64_toString_utf8 JSON_stringify).

Lemma verification_trace token s :
  signings (trace (run w (verification token) s)) = [] /\
  dispatches (trace (run w (verification token) s)) = [] /\
  logs (trace (run w (verification token) s)) = [].
Proof. unfold verification, getParameter, await. exec w; done. Qed.

(** C2. A request whose [authorization] header is absent, has no values, or
    whose first value does not start with ["Bearer "] gets exactly the 403
    response, and nothing else happens: no collaborator is called and nothing
    is logged. *)
Theorem missing_or_malformed_credential_is_forbidden m event cfRequest s :
  request_of event = Some cfRequest ->
  missing_or_malformed_credential cfRequest ->
  run w (handler m event) s = {| result := Ok Forbidden; final := s; trace := [] |}.
Proof.
  intros Hreq Hbad. rewrite (handler_handle _ _ _ _ _ _ Hreq).
  apply auth_guard_true in Hbad. unfold_handle. by rewrite Hbad.
Qed.

(** What a trace with a signing call tells: how the handler got there and
    what it asked the signer. *)
Lemma signing_inversion m event s signer request settlement :
  (signer, request, settlement) ∈ signings (trace (run w (handler m event) s)) ->
  exists cfRequest domainName apiUrl contentType,
    request_of event = Some cfRequest /\
    well_formed_bearer cfRequest /\
    domainName_of cfRequest = Ok domainName /\
    URL_new ("https://" +:+ domainName +:+ CfRequest.uri cfRequest) = Ok apiUrl /\
    first_value (CfRequest.headers cfRequest !! "content-type") = Ok contentType /\
    signer = sigv4 m /\
    request = with_body cfRequest (signing_options cfRequest apiUrl contentType) /\
    signings (trace (run w (handler m event) s)) = [(signer, request, settlement)].
Proof.
  unfold request_of. unfold_handler.
  exec w; one_element; try done;
    eexists _, _, _, _; rewrite <- auth_guard_false; repeat split; eauto.
Qed.

(** What a trace with a call to axios tells: the request was signed first, it
    went to the URL built from the origin's domain name and the request's
    [uri], and its settlement alone decides the response and the log. *)
Lemma dispatch_inversion m event s config settlement :
  (config, settlement) ∈ dispatches (trace (run w (handler m event) s)) ->
  exists cfRequest domainName apiUrl request signed,
    request_of event = Some cfRequest /\
    domainName_of cfRequest = Ok domainName /\
    URL_new ("https://" +:+ domainName +:+ CfRequest.uri cfRequest) = Ok apiUrl /\
    signings (trace (run w (handler m event) s)) = [(sigv4 m, request, Ok signed)] /\
    config = {| Axios.spread := signed;
                Axios.url := Url.href apiUrl;
                Axios.timeout := 5000;
                Axios.data := HttpRequest.body request |} /\
    dispatches (trace (run w (handler m event) s)) = [(config, settlement)] /\
    result (run w (handler m event) s)
      = Ok match settlement with
           | Ok response => OK (JSON_stringify (Axios.data_of response))
           | Threw _ => InternalServerError
           end /\
    logs (trace (run w (handler m event) s))
      = match settlement with
        | Ok _ => []
        | Threw e => [("An error occurred", e)]
        end.
Proof.
  unfold request_of. unfold_handler.
  exec w; one_element; try done; eexists _, _, _, _, _; repeat split; eauto.
Qed.

(** The handler rejects only where it evaluates an expression outside its two
    [try] blocks: the event has no record, the origin has no custom domain,
    the URL does not parse, or there is no [content-type] value. *)
Lemma handler_rejection m event s e :
  result (run w (handler m event) s) = Threw e ->
  request_of event = None \/
  exists cfRequest,
    request_of event = Some cfRequest /\
    well_formed_bearer cfRequest /\
    (domainName_of cfRequest = Threw e \/
     (exists domainName,
        domainName_of cfRequest = Ok domainName /\
        URL_new ("https://" +:+ domainName +:+ CfRequest.uri cfRequest) = Threw e) \/
     first_value (CfRequest.headers cfRequest !! "content-type") = Threw e).
Proof.
  unfold request_of. unfold_handler.
  exec w; intros; simplify_eq; auto;
    right; eexists; rewrite <- auth_guard_false; split_and!; eauto.
  exfalso.
  match goal with
  | G : auth_guard _ = false, F : first_value _ = Threw _ |- _ =>
      apply auth_guard_false in G as (? & ? & Hauth & _); by rewrite Hauth in F
  end.
Qed.

(** When the handler resolves, it resolves to one of the three shapes. *)
Lemma handler_response_shapes m event s response :
  result (run w (handler m event) s) = Ok response ->
  response = Forbidden \/ response = InternalServerError \/
  exists body, response = OK body.
Proof.
  unfold_handler. exec w; intros; simplify_eq; eauto.
Qed.

Lemma logs_app t1 t2 : logs (t1 ++ t2) = logs t1 ++ logs t2.
Proof. apply omap_app. Qed.

Lemma signings_app t1 t2 : signings (t1 ++ t2) = signings t1 ++ signings t2.
Proof. apply omap_app. Qed.

Lemma dispatches_app t1 t2 : dispatches (t1 ++ t2) = dispatches t1 ++ dispatches t2.
Proof. apply omap_app. Qed.

Lemma fetch_count_app name t1 t2 :
  fetch_count name (t1 ++ t2) = fetch_count name t1 + fetch_count name t2.
Proof.
  unfold fetch_count, fetches. by rewrite omap_app, filter_app, length_app.
Qed.

(** C3. With a well-formed Bearer header, whatever the body of the first
    [try] raises (a failed fetch of either parameter, a parameter-store answer
    without a parameter, a verifier that cannot be created, a token that does
    not verify) is caught: the handler logs that exception, answers with the
    same 403 response as for a missing header, signs nothing and does not call
    the origin. *)
Theorem verification_failure_is_forbidden m event cfRequest s e :
  request_of event = Some cfRequest ->
  well_formed_bearer cfRequest ->
  result (run w (verification (token_of cfRequest)) s) = Threw e ->
  result (run w (handler m event) s) = Ok Forbidden /\
  logs (trace (run w (handler m event) s)) = [("Token verification failed:", e)] /\
  signings (trace (run w (handler m event) s)) = [] /\
  dispatches (trace (run w (handler m event) s)) = [].
Proof.
  intros Hreq Hwf Hfail. rewrite (handler_handle _ _ _ _ _ _ Hreq).
  destruct (verification_trace (token_of cfRequest) s) as (Hs & Hd & Hl).
  unfold_handle. rewrite (proj2 (auth_guard_false _) Hwf).
  unfold token_of in *. destruct (well_formed_first_value _ Hwf) as [value Hvalue].
  rewrite Hvalue in *. cbn [lift bind].
  rewrite run_bind. unfold verify_token. rewrite run_try_catch, run_bind, Hfail.
  cbn [after run seen result final trace].
  rewrite !logs_app, !signings_app, !dispatches_app, Hs, Hd, Hl. done.
Qed.

(** When the promise of axios resolves with a response, the handler answers
    200 OK with the JSON serialization of the payload of that response and
    logs nothing; it does not look at the status. *)
Theorem origin_response_is_returned m event s config response :
  (config, Ok response) ∈ dispatches (trace (run w (handler m event) s)) ->
  result (run w (handler m event) s)
    = Ok {| ProxyResponse.status := "200";
            ProxyResponse.statusDescription := "OK";
            ProxyResponse.body := JSON_stringify (Axios.data_of response) |} /\
  logs (trace (run w (handler m event) s)) = [].
Proof.
  intros Hin. apply dispatch_inversion in Hin.
  destruct Hin as (? & ? & ? & ? & ? & _ & _ & _ & _ & _ & _ & Hres & Hlog). done.
Qed.

(** C5. When the call to the origin is rejected (timeout, refused connection,
    host that does not resolve), the handler answers with the 500 response and
    logs the error; the request was sent with the fixed timeout of 5000 ms. *)
Theorem transport_failure_is_internal_error m event s config e :
  (config, Threw e) ∈ dispatches (trace (run w (handler m event) s)) ->
  result (run w (handler m event) s)
    = Ok {| ProxyResponse.status := "500";
            ProxyResponse.statusDescription := "Internal Server Error";
            ProxyResponse.body := "Internal Server Error" |} /\
  logs (trace (run w (handler m event) s)) = [("An error occurred", e)] /\
  Axios.timeout config = 5000%Z.
Proof.
  intros Hin. apply dispatch_inversion in Hin.
  destruct Hin as (? & ? & ? & ? & ? & _ & _ & _ & _ & -> & _ & Hres & Hlog). done.
Qed.

Lemma handler_fetches m event s :
  fetches (trace (run w (handler m event) s)) = [] \/
  fetches (trace (run w (handler m event) s)) = ["/publisher/user-pool-id"] \/
  fetches (trace (run w (handler m event) s))
    = ["/publisher/user-pool-id"; "/publisher/user-pool-client-id"].
Proof. unfold_handler. exec w; auto. Qed.

Lemma handler_fetches_bearer m event cfRequest s :
  request_of event = Some cfRequest ->
  well_formed_bearer cfRequest ->
  fetches (trace (run w (handler m event) s)) <> [].
Proof.
  intros Hreq Hwf. rewrite (handler_handle _ _ _ _ _ _ Hreq).
  unfold_handle. rewrite (proj2 (auth_guard_false _) Hwf).
  destruct (well_formed_first_value _ Hwf) as [value ->].
  unfold verify_token, verification, getParameter, await. exec w; done.
Qed.

Lemma fetch_count_le_1 m event s name :
  fetch_count name (trace (run w (handler m event) s)) <= 1.
Proof.
  unfold fetch_count.
  destruct (handler_fetches m event s) as [-> | [-> | ->]]; cbn;
    repeat case_decide; simplify_eq; cbn; lia.
Qed.

Lemma fetch_count_pool_id m event cfRequest s :
  request_of event = Some cfRequest ->
  well_formed_bearer cfRequest ->
  fetch_count "/publisher/user-pool-id" (trace (run w (handler m event) s)) = 1.
Proof.
  intros Hreq Hwf. pose proof (handler_fetches_bearer m event cfRequest s Hreq Hwf).
  unfold fetch_count.
  destruct (handler_fetches m event s) as [? | [-> | ->]]; done.
Qed.

(** C6, as the code has it.  There is no cache.  One invocation asks the
    parameter store for each name at most once, and for the pool id exactly
    once when the Bearer header is well formed; two consecutive invocations
    with well-formed headers in the same warm process ask for the pool id
    twice. *)
Theorem parameters_are_fetched_by_every_invocation p first second r1 r2 s :
  request_of first = Some r1 -> well_formed_bearer r1 ->
  request_of second = Some r2 -> well_formed_bearer r2 ->
  (forall name, fetch_count name (trace (run w (invoke p first) s)) <= 1) /\
  fetch_count "/publisher/user-pool-id" (trace (run w (invoke p first) s)) = 1 /\
  fetch_count "/publisher/user-pool-id" (consecutive w p first second s) = 2.
Proof.
  intros H1 W1 H2 W2. unfold_invoke. split_and!.
  - intros name. apply fetch_count_le_1.
  - by eapply fetch_count_pool_id.
  - rewrite fetch_count_app.
    by rewrite (fetch_count_pool_id _ _ _ _ H1 W1), (fetch_count_pool_id _ _ _ _ H2 W2).
Qed.

(** C7, as the code has it.  The signer is built once, when the module is
    loaded, from the credentials the environment holds at that moment; every
    signing call of the process uses those, whatever the environment holds
    when the call is made. *)
Theorem signing_uses_credentials_read_at_load env_at_load env_now event s
    signer request settlement :
  (signer, request, settlement)
    ∈ signings (trace (run w (invoke (setenv env_now (cold_start env_at_load)) event) s)) ->
  SigV4.credentials signer = credentials_of env_at_load.
Proof.
  intros Hin. apply signing_inversion in Hin.
  destruct Hin as (? & ? & ? & ? & _ & _ & _ & _ & _ & -> & _). done.
Qed.

Lemma with_body_absent cfRequest options :
  has_body cfRequest = false -> with_body cfRequest options = options.
Proof.
  unfold_with_body.
  destruct (CfRequest.body cfRequest) as [cf_body|]; [|done]. by intros ->.
Qed.

Lemma with_body_present cfRequest options cf_body :
  CfRequest.body cfRequest = Some cf_body ->
  has_body cfRequest = true ->
  let body := if String.eqb (Body.encoding cf_body) "base64"
              then Buffer_from_base64_toString_utf8 (Body.data cf_body)
              else Body.data cf_body in
  HttpRequest.body (with_body cfRequest options) = Some body /\
  HttpRequest.headers (with_body cfRequest options)
    = <["Content-Length" := Number_toString (Buffer_byteLength body)]>
        (HttpRequest.headers options).
Proof.
  unfold_with_body. intros ->. by intros ->.
Qed.


(** C10. The headers the handler gives the signer are the inbound
    content-type value under [Content-Type], the host name of the target URL
    under [host], and [Content-Length] exactly when a body is forwarded;
    nothing else, so the inbound [authorization] header is not among them.
    The request handed to axios is whatever the signer returned for that
    request. *)
Theorem signing_headers_are_content_type_and_host m event s signer request settlement :
  (signer, request, settlement) ∈ signings (trace (run w (handler m event) s)) ->
  exists cfRequest domainName apiUrl contentType,
    request_of event = Some cfRequest /\
    first_value (CfRequest.headers cfRequest !! "content-type") = Ok contentType /\
    domainName_of cfRequest = Ok domainName /\
    URL_new ("https://" +:+ domainName +:+ CfRequest.uri cfRequest) = Ok apiUrl /\
    HttpRequest.headers request
      = match HttpRequest.body request with
        | Some body =>
            <["Content-Length" := Number_toString (Buffer_byteLength body)]>
              (<["host" := Url.hostname apiUrl]> {["Content-Type" := contentType]})
        | None => <["host" := Url.hostname apiUrl]> {["Content-Type" := contentType]}
        end /\
    (is_Some (HttpRequest.body request) <-> has_body cfRequest = true) /\
    HttpRequest.headers request !! "authorization" = None /\
    (forall config dispatched,
        (config, dispatched) ∈ dispatches (trace (run w (handler m event) s)) ->
        settlement = Ok (Axios.spread config)).
Proof.
  intros Hin.
  destruct (signing_inversion _ _ _ _ _ _ Hin)
    as (cfRequest & domainName & apiUrl & contentType
        & Hreq & _ & Hdom & Hurl & Hct & -> & -> & Hsign).
  exists cfRequest, domainName, apiUrl, contentType.
  assert (Hshape :
    HttpRequest.headers (with_body cfRequest (signing_options cfRequest apiUrl contentType))
      = match HttpRequest.body
                (with_body cfRequest (signing_options cfRequest apiUrl contentType)) with
        | Some body =>
            <["Content-Length" := Number_toString (Buffer_byteLength body)]>
              (<["host" := Url.hostname apiUrl]> {["Content-Type" := contentType]})
        | None => <["host" := Url.hostname apiUrl]> {["Content-Type" := contentType]}
        end /\
    (is_Some (HttpRequest.body
                (with_body cfRequest (signing_options cfRequest apiUrl contentType)))
     <-> has_body cfRequest = true)).
  { destruct (has_body cfRequest) eqn:Hhas.
    - unfold has_body in Hhas.
      destruct (CfRequest.body cfRequest) as [cf_body|] eqn:Hbody; [|done].
      destruct (with_body_present cfRequest
                  (signing_options cfRequest apiUrl contentType) cf_body Hbody)
        as [Hb Hh]; [by unfold has_body; rewrite Hbody|].
      rewrite Hh, Hb. split; [done|]. split; eauto.
    - rewrite (with_body_absent _ _ Hhas). cbn. split; [done|].
      split; [by intros [? ?]|done]. }
  destruct Hshape as [Hheaders Hsome].
  split_and!; try done.
  - rewrite Hheaders.
    destruct (HttpRequest.body _);
      by rewrite ?lookup_insert_ne, lookup_singleton_ne.
  - intros config dispatched Hd.
    destruct (dispatch_inversion _ _ _ _ _ Hd)
      as (? & ? & ? & ? & signed & _ & _ & _ & Hsign' & -> & _).
    rewrite Hsign in Hsign'. by simplify_eq.
Qed.

(** ** More properties of an invocation *)

Lemma with_body_frame cfRequest options :
  HttpRequest.method (with_body cfRequest options) = HttpRequest.method options /\
  HttpRequest.hostname (with_body cfRequest options) = HttpRequest.hostname options /\
  HttpRequest.path (with_body cfRequest options) = HttpRequest.path options /\
  HttpRequest.protocol (with_body cfRequest options) = HttpRequest.protocol options /\
  HttpRequest.query (with_body cfRequest options) = HttpRequest.query options.
Proof.
  unfold_with_body. destruct (CfRequest.body cfRequest) as [cf_body|]; [|done].
  by destruct (truthy (Body.data cf_body)).
Qed.


(** X2. What is verified.  Whenever [verify] is called, it is called once, on
    the verifier that [CognitoJwtVerifier.create] returned, with the token of
    the authorization header; that verifier was asked for with token use
    ["id"] and with the values the parameter store returned for the pool id
    and for the client id. *)
Theorem verifier_is_built_from_the_stored_parameters m event s verifier token settlement :
  (verifier, token, settlement) ∈ verifications (trace (run w (handler m event) s)) ->
  exists cfRequest pool_answer client_answer pool client,
    request_of event = Some cfRequest /\
    token = token_of cfRequest /\
    fetch_answers (trace (run w (handler m event) s))
      = [("/publisher/user-pool-id", Ok pool_answer);
         ("/publisher/user-pool-client-id", Ok client_answer)] /\
    Ssm.Parameter_ pool_answer = Some pool /\
    Ssm.Parameter_ client_answer = Some client /\
    creations (trace (run w (handler m event) s))
      = [({| Cognito.userPoolId := Ssm.Value pool;
             Cognito.tokenUse := "id";
             Cognito.clientId := Ssm.Value client |}, Ok verifier)] /\
    verifications (trace (run w (handler m event) s)) = [(verifier, token, settlement)].
Proof.
  unfold request_of, token_of. unfold_handler.
  exec w; one_element; try done; eexists _, _, _, _, _;
    match goal with F : first_value _ = Ok _ |- _ => rewrite F end;
    split_and!; eauto.
Qed.

(** X3. When the signer rejects the request, the handler answers with the 500
    response, logs the signer's error, and does not call the origin. *)
Theorem signing_failure_is_internal_error m event s signer request e :
  (signer, request, Threw e) ∈ signings (trace (run w (handler m event) s)) ->
  result (run w (handler m event) s) = Ok InternalServerError /\
  logs (trace (run w (handler m event) s)) = [("An error occurred", e)] /\
  dispatches (trace (run w (handler m event) s)) = [].
Proof. unfold_handler. exec w; one_element; done. Qed.

(** X4. What a response says about the run.  A 200 is only ever produced from
    one call to the origin that resolved, and carries the serialization of
    its payload; a 403 is only ever produced without signing anything and
    without calling the origin. *)
Theorem response_status_reflects_the_run m event s response :
  result (run w (handler m event) s) = Ok response ->
  (ProxyResponse.status response = "200" ->
   exists config answer,
     dispatches (trace (run w (handler m event) s)) = [(config, Ok answer)] /\
     response = OK (JSON_stringify (Axios.data_of answer))) /\
  (ProxyResponse.status response = "403" ->
   signings (trace (run w (handler m event) s)) = [] /\
   dispatches (trace (run w (handler m event) s)) = []).
Proof.
  unfold_handler. exec w; intros; simplify_eq; split; intros; simplify_eq; eauto.
Qed.

(** X5. The console tells the outcome.  An invocation writes no line, or the
    verification line together with the 403 response, or the forwarding line
    together with the 500 response; a 500 response always comes with its
    line, and a rejected invocation writes nothing. *)
Theorem console_line_matches_the_response m event s :
  (logs (trace (run w (handler m event) s)) = [] \/
   (exists e, logs (trace (run w (handler m event) s))
                = [("Token verification failed:", e)] /\
              result (run w (handler m event) s) = Ok Forbidden) \/
   (exists e, logs (trace (run w (handler m event) s)) = [("An error occurred", e)] /\
              result (run w (handler m event) s) = Ok InternalServerError)) /\
  (result (run w (handler m event) s) = Ok InternalServerError ->
   logs (trace (run w (handler m event) s)) <> []) /\
  (forall e, result (run w (handler m event) s) = Threw e ->
             logs (trace (run w (handler m event) s)) = []).
Proof.
  unfold_handler. exec w; split_and!; intros; simplify_eq; eauto.
Qed.

(** X6. When the event has a record, the origin has a custom domain name, the
    target URL parses and there is a [content-type] value, the handler
    resolves, and resolves to one of the three response shapes, whatever the
    collaborators do. *)
Theorem handler_resolves_when_the_request_is_forwardable m event s
    cfRequest domainName apiUrl contentType :
  request_of event = Some cfRequest ->
  domainName_of cfRequest = Ok domainName ->
  URL_new ("https://" +:+ domainName +:+ CfRequest.uri cfRequest) = Ok apiUrl ->
  first_value (CfRequest.headers cfRequest !! "content-type") = Ok contentType ->
  exists response,
    result (run w (handler m event) s) = Ok response /\
    (response = Forbidden \/ response = InternalServerError \/
     exists body, response = OK body).
Proof.
  intros Hreq Hdom Hurl Hct.
  destruct (result (run w (handler m event) s)) as [response|e] eqn:Hres.
  - exists response. split; [done|]. by eapply handler_response_shapes.
  - exfalso. destruct (handler_rejection _ _ _ _ Hres)
      as [Hnone | (cfRequest' & Hreq' & _ & [Hd | [(d & Hd & Hu) | Hc]])].
    + congruence.
    + congruence.
    + assert (cfRequest' = cfRequest) as -> by congruence. congruence.
    + congruence.
Qed.

(** X7. A rejection comes late and leaves no mark.  When the event has a
    record and the handler rejects, the header was well formed, the
    verification had succeeded after both parameters were fetched, nothing
    was signed, the origin was not called and nothing was logged. *)
Theorem rejection_follows_a_successful_verification m event s cfRequest e :
  request_of event = Some cfRequest ->
  result (run w (handler m event) s) = Threw e ->
  well_formed_bearer cfRequest /\
  result (run w (verification (token_of cfRequest)) s) = Ok tt /\
  fetches (trace (run w (handler m event) s))
    = ["/publisher/user-pool-id"; "/publisher/user-pool-client-id"] /\
  signings (trace (run w (handler m event) s)) = [] /\
  dispatches (trace (run w (handler m event) s)) = [] /\
  logs (trace (run w (handler m event) s)) = [].
Proof.
  intros Hreq. rewrite (handler_handle _ _ _ _ _ _ Hreq). unfold token_of.
  unfold_handle. unfold verify_token, verification, signAndForwardRequest,
    getParameter, await, lift.
  destruct (auth_guard _) eqn:Hguard; [done|].
  apply auth_guard_false in Hguard.
  destruct (well_formed_first_value _ Hguard) as [value Hvalue]. rewrite Hvalue.
  exec w; intros; simplify_eq;
    repeat match goal with u : unit |- _ => destruct u end; done.
Qed.

(** X8. The request line that is signed.  The signer of a freshly loaded
    module always signs for service [lambda] in region [eu-central-1]; the
    request it is given has the inbound method, the host and the protocol of
    the target URL, the inbound query string as [query], and as [path] the
    path of the target URL, followed by [?] and the query string when the
    query string is not empty.  Attaching a body changes none of these. *)
Theorem signed_request_line env event s signer request settlement :
  (signer, request, settlement)
    ∈ signings (trace (run w (handler (load_module env) event) s)) ->
  exists cfRequest domainName apiUrl,
    request_of event = Some cfRequest /\
    domainName_of cfRequest = Ok domainName /\
    URL_new ("https://" +:+ domainName +:+ CfRequest.uri cfRequest) = Ok apiUrl /\
    SigV4.service signer = "lambda" /\
    SigV4.region signer = "eu-central-1" /\
    HttpRequest.method request = CfRequest.method cfRequest /\
    HttpRequest.hostname request = Url.host apiUrl /\
    HttpRequest.protocol request = Url.protocol apiUrl /\
    HttpRequest.query request = CfRequest.querystring cfRequest /\
    HttpRequest.path request
      = if decide (CfRequest.querystring cfRequest = "")
        then Url.pathname apiUrl
        else Url.pathname apiUrl +:+ "?" +:+ CfRequest.querystring cfRequest.
Proof.
  intros Hin.
  destruct (signing_inversion _ _ _ _ _ _ Hin)
    as (cfRequest & domainName & apiUrl & contentType
        & Hreq & _ & Hdom & Hurl & _ & -> & -> & _).
  exists cfRequest, domainName, apiUrl.
  destruct (with_body_frame cfRequest (signing_options cfRequest apiUrl contentType))
    as (-> & -> & -> & -> & ->).
  split_and!; try done. unfold signing_options. cbn.
  destruct (decide (CfRequest.querystring cfRequest = "")) as [->|Hne].
  - cbn. apply append_empty.
  - by destruct (CfRequest.querystring cfRequest).
Qed.

(** X9. A body whose encoding tag is anything but [base64] is handed on as
    it came: the data itself is the body given to the signer and the [data]
    given to axios, and the Content-Length given to the signer is its byte
    length.  (What axios then puts on the wire is axios' business.) *)
Theorem other_encodings_are_forwarded_verbatim m event cfRequest cf_body s
    config settlement :
  request_of event = Some cfRequest ->
  CfRequest.body cfRequest = Some cf_body ->
  has_body cfRequest = true ->
  Body.encoding cf_body <> "base64" ->
  (config, settlement) ∈ dispatches (trace (run w (handler m event) s)) ->
  Axios.data config = Some (Body.data cf_body) /\
  exists request signed,
    signings (trace (run w (handler m event) s)) = [(sigv4 m, request, Ok signed)] /\
    HttpRequest.body request = Some (Body.data cf_body) /\
    HttpRequest.headers request !! "Content-Length"
      = Some (Number_toString (String.length (Body.data cf_body))).
Proof.
  intros Hreq Hbody Hhas Henc Hin.
  destruct (dispatch_inversion _ _ _ _ _ Hin)
    as (cfRequest' & domainName & apiUrl & request & signed
        & Hreq' & _ & _ & Hsign & -> & _).
  assert (cfRequest' = cfRequest) as -> by congruence.
  assert (Hmem : (sigv4 m, request, Ok signed)
                   ∈ signings (trace (run w (handler m event) s)))
    by (rewrite Hsign; left).
  destruct (signing_inversion _ _ _ _ _ _ Hmem)
    as (cfRequest' & ? & apiUrl' & contentType & Hreq'' & _ & _ & _ & _ & _ & -> & _).
  assert (cfRequest' = cfRequest) as -> by congruence.
  destruct (with_body_present cfRequest
              (signing_options cfRequest apiUrl' contentType) cf_body Hbody Hhas)
    as [Hb Hh].
  apply String.eqb_neq in Henc. rewrite Henc in Hb, Hh. cbn.
  split; [done|]. eexists _, _. split_and!; [done..|].
  by rewrite Hh, lookup_insert_eq.
Qed.

Lemma auth_guard_first_value header :
  auth_guard header
  = match first_value header with
    | Ok value => negb (startsWith value "Bearer ")
    | Threw _ => true
    end.
Proof. unfold auth_guard, first_value. by destruct header as [[|? ?]|]. Qed.

(** X10. What the handler reads.  Two requests with the same method, [uri],
    query string, origin domain, body, first [authorization] value and first
    [content-type] value are one and the same program: in every world their
    invocations make the same calls and end the same way.  No other header,
    and no further value of these two, has any influence. *)
Theorem invocation_depends_on_seven_parts_of_the_request m e1 e2 r1 r2 s :
  request_of e1 = Some r1 ->
  request_of e2 = Some r2 ->
  CfRequest.method r1 = CfRequest.method r2 ->
  CfRequest.uri r1 = CfRequest.uri r2 ->
  CfRequest.querystring r1 = CfRequest.querystring r2 ->
  domainName_of r1 = domainName_of r2 ->
  CfRequest.body r1 = CfRequest.body r2 ->
  first_value (CfRequest.headers r1 !! "authorization")
    = first_value (CfRequest.headers r2 !! "authorization") ->
  first_value (CfRequest.headers r1 !! "content-type")
    = first_value (CfRequest.headers r2 !! "content-type") ->
  handler m e1 = handler m e2 /\
  run w (handler m e1) s = run w (handler m e2) s.
Proof.
  intros H1 H2 Hm Hu Hq Hd Hb Ha Hc.
  assert (handler m e1 = handler m e2) as ->; [|done].
  rewrite (handler_handle _ _ _ _ _ _ H1), (handler_handle _ _ _ _ _ _ H2).
  unfold_handle. unfold signAndForwardRequest, signing_options. unfold_with_body.
  rewrite !auth_guard_first_value. by rewrite Ha, Hc, Hd, Hu, Hm, Hq, Hb.
Qed.

(** X11. The handler and the stack disagree on the parameter names.  Against
    a parameter store that rejects every name outside the two that the stack
    creates and allows, every invocation ends with the 403 response: either
    at the guard, or at the first fetch; no verifier is created, no token is
    verified, nothing is signed and the origin is never called. *)
Theorem handler_is_forbidden_by_the_deployed_parameter_names m event cfRequest s :
  (forall name s',
      name ∉ Stack.parameterNames ->
      exists e, (w (ssmClient_send {| Ssm.Name := name |}) s').1 = Threw e) ->
  request_of event = Some cfRequest ->
  result (run w (handler m event) s) = Ok Forbidden /\
  creations (trace (run w (handler m event) s)) = [] /\
  verifications (trace (run w (handler m event) s)) = [] /\
  signings (trace (run w (handler m event) s)) = [] /\
  dispatches (trace (run w (handler m event) s)) = [].
Proof.
  intros Hstore Hreq. rewrite (handler_handle _ _ _ _ _ _ Hreq).
  destruct (Hstore "/publisher/user-pool-id" s) as [e He].
  { unfold Stack.parameterNames.
    apply not_elem_of_cons; split; [done|].
    apply not_elem_of_cons; split; [done|]. apply not_elem_of_nil. }
  revert He. unfold_handle.
  unfold verify_token, verification, signAndForwardRequest, getParameter, await, lift.
  destruct (auth_guard _) eqn:Hguard; [done|].
  apply auth_guard_false in Hguard.
  destruct (well_formed_first_value _ Hguard) as [value ->].
  exec w; intros; simplify_eq; done.
Qed.

(** X15. Where the request goes.  Every call to the origin is the only one
    of its invocation, is made with a timeout of 5000 ms, and goes to the
    [href] of the URL parsed from ["https://"], the origin's domain name and
    the request's [uri]: the query string of the request has no part in the
    address. *)
Theorem origin_request_goes_to_domain_and_uri m event s config settlement :
  (config, settlement) ∈ dispatches (trace (run w (handler m event) s)) ->
  exists cfRequest domainName apiUrl,
    request_of event = Some cfRequest /\
    domainName_of cfRequest = Ok domainName /\
    URL_new ("https://" +:+ domainName +:+ CfRequest.uri cfRequest) = Ok apiUrl /\
    Axios.url config = Url.href apiUrl /\
    Axios.timeout config = 5000%Z /\
    dispatches (trace (run w (handler m event) s)) = [(config, settlement)].
Proof.
  intros Hin.
  destruct (dispatch_inversion _ _ _ _ _ Hin)
    as (cfRequest & domainName & apiUrl & request & signed
        & Hreq & Hdom & Hurl & _ & -> & Hone & _).
  exists cfRequest, domainName, apiUrl. split_and!; done.
Qed.

(** X16. The bearer token stays at the edge.  The request given to the signer
    is determined by the method, [uri], query string, origin domain, body and
    first [content-type] value of the inbound request: two invocations whose
    requests agree on these are asked to sign the same request, whatever
    their [authorization] headers, worlds' states and other headers are. *)
Theorem signed_request_is_independent_of_the_credential m e1 e2 r1 r2 s1 s2
    signer1 request1 settlement1 signer2 request2 settlement2 :
  request_of e1 = Some r1 ->
  request_of e2 = Some r2 ->
  CfRequest.method r1 = CfRequest.method r2 ->
  CfRequest.uri r1 = CfRequest.uri r2 ->
  CfRequest.querystring r1 = CfRequest.querystring r2 ->
  domainName_of r1 = domainName_of r2 ->
  CfRequest.body r1 = CfRequest.body r2 ->
  first_value (CfRequest.headers r1 !! "content-type")
    = first_value (CfRequest.headers r2 !! "content-type") ->
  (signer1, request1, settlement1) ∈ signings (trace (run w (handler m e1) s1)) ->
  (signer2, request2, settlement2) ∈ signings (trace (run w (handler m e2) s2)) ->
  signer1 = signer2 /\ request1 = request2.
Proof.
  intros H1 H2 Hm Hu Hq Hd Hb Hc Hin1 Hin2.
  destruct (signing_inversion _ _ _ _ _ _ Hin1)
    as (r1' & d1 & u1 & c1 & Hr1 & _ & Hd1 & Hu1 & Hc1 & -> & -> & _).
  destruct (signing_inversion _ _ _ _ _ _ Hin2)
    as (r2' & d2 & u2 & c2 & Hr2 & _ & Hd2 & Hu2 & Hc2 & -> & -> & _).
  assert (r1' = r1) as -> by congruence. assert (r2' = r2) as -> by congruence.
  assert (d1 = d2) as -> by congruence. assert (c1 = c2) as -> by congruence.
  assert (u1 = u2) as -> by congruence.
  split; [done|]. unfold signing_options. unfold_with_body. by rewrite Hm, Hq, Hb.
Qed.

End Properties.

(** ** The origin behind axios *)

(** Every settlement that a trace shows for a call to axios is one the world
    gave for that call. *)
Lemma dispatch_settlement {S A} (w : World S) (p : Prog A) s config settlement :
  (config, settlement) ∈ dispatches (trace (run w p s)) ->
  exists s', settlement = (w (axios config) s').1.
Proof.
  revert s. induction p as [a|e|l e k IH|c k IH]; intros s; cbn.
  - by intros ?%elem_of_nil.
  - by intros ?%elem_of_nil.
  - apply IH.
  - destruct c; cbn; try apply IH.
    intros [Heq | Hin]%elem_of_cons; [|by eapply IH].
    injection Heq as -> ->. eauto.
Qed.

(** C4, as the code has it.  The handler does not branch on the status, but
    axios does: called as in lines 109-114, it accepts a response of status
    200 to 299 and rejects any other.  So when the origin answers the request
    with an HTTP response, the handler returns 200 OK with the JSON
    serialization of the payload if the status is from 200 to 299, and the
    500 response otherwise. *)
Theorem origin_response_is_returned_when_axios_accepts_it
    (URL_new : string -> Result Url.t) (decode : string -> string)
    (stringify : Json -> string) {S} (w : World S)
    (origin : Axios.config -> OriginAnswer) m event s config settlement response :
  (config, settlement)
    ∈ dispatches (trace (run (with_origin w origin)
                           (handler URL_new decode stringify m event) s)) ->
  origin config = HttpResponse response ->
  ((200 <= Axios.status response < 300)%Z ->
   result (run (with_origin w origin) (handler URL_new decode stringify m event) s)
     = Ok {| ProxyResponse.status := "200";
             ProxyResponse.statusDescription := "OK";
             ProxyResponse.body := stringify (Axios.data_of response) |} /\
   logs (trace (run (with_origin w origin)
                  (handler URL_new decode stringify m event) s)) = []) /\
  (~ (200 <= Axios.status response < 300)%Z ->
   result (run (with_origin w origin) (handler URL_new decode stringify m event) s)
     = Ok {| ProxyResponse.status := "500";
             ProxyResponse.statusDescription := "Internal Server Error";
             ProxyResponse.body := "Internal Server Error" |}).
Proof.
  intros Hin Horigin.
  destruct (dispatch_settlement _ _ _ _ _ Hin) as [s' Hsettled].
  cbn in Hsettled. rewrite Horigin in Hsettled. cbn in Hsettled.
  destruct (dispatch_inversion _ _ _ _ _ _ _ _ _ Hin)
    as (? & ? & ? & ? & ? & _ & _ & _ & _ & _ & _ & Hres & Hlog).
  unfold validateStatus in Hsettled.
  split; intros Hstatus.
  - rewrite (proj2 (andb_true_iff _ _)) in Hsettled by (split; lia).
    subst settlement. done.
  - destruct (_ && _) eqn:Hvalid in Hsettled.
    + apply andb_true_iff in Hvalid. lia.
    + subst settlement. done.
Qed.

(** ** Splitting strings: the bearer token and the origin's domain name *)

Lemma split_space_split_on s : split_space s = split_on " "%char s.
Proof. induction s as [|c s IH]; [done|]. cbn. by rewrite IH. Qed.

Lemma split_on_cons sep s : exists piece pieces, split_on sep s = piece :: pieces.
Proof.
  induction s as [|c s (piece & pieces & IH)]; cbn; [by eauto|].
  rewrite IH. destruct (Ascii.eqb c sep); eauto.
Qed.

Lemma split_on_app sep a b :
  split_on sep (a +:+ String sep b) = split_on sep a ++ split_on sep b.
Proof.
  induction a as [|c a IH].
  - change ("" +:+ String sep b) with (String sep b).
    cbn. by rewrite Ascii.eqb_refl.
  - change (String c a +:+ String sep b) with (String c (a +:+ String sep b)).
    cbn. rewrite IH. destruct (Ascii.eqb c sep); [done|].
    by destruct (split_on_cons sep a) as (piece & pieces & ->).
Qed.

Lemma split_on_whole sep s : occurrences sep s = 0 -> split_on sep s = [s].
Proof.
  induction s as [|c s IH]; [done|]. cbn.
  destruct (Ascii.eqb c sep); [done|]. intros H. by rewrite IH.
Qed.

Lemma split_on_length sep s : length (split_on sep s) = S (occurrences sep s).
Proof.
  induction s as [|c s IH]; [done|]. cbn.
  destruct (Ascii.eqb c sep); cbn; [by rewrite IH|].
  destruct (split_on_cons sep s) as (piece & pieces & Hs).
  rewrite Hs in *. cbn in *. done.
Qed.

(** The second piece of [head sep word tail], where [word] has no separator
    and [tail] is empty or begins with one, is [word]. *)
Lemma split_on_second sep head word tail :
  occurrences sep head = 0 ->
  occurrences sep word = 0 ->
  tail = "" \/ (exists more, tail = String sep more) ->
  split_on sep (head +:+ String sep (word +:+ tail)) !! 1%nat = Some word.
Proof.
  intros Hhead Hword Htail. rewrite split_on_app, (split_on_whole _ _ Hhead). cbn.
  destruct Htail as [-> | [more ->]].
  - by rewrite append_empty, (split_on_whole _ _ Hword).
  - by rewrite split_on_app, (split_on_whole _ _ Hword).
Qed.

(** X12. The token that is verified is the second word of the header value:
    what stands between the space of the prefix and the next space, or the
    end.  Whatever follows a second space is not part of the token, and the
    token is empty when the prefix is followed at once by a space or by
    nothing. *)
Theorem bearer_token_is_the_second_word cfRequest first others token tail :
  CfRequest.headers cfRequest !! "authorization" = Some (first :: others) ->
  Header.value first = "Bearer " +:+ token +:+ tail ->
  occurrences " "%char token = 0 ->
  tail = "" \/ (exists more, tail = String " "%char more) ->
  token_of cfRequest = Some token.
Proof.
  intros Hheader Hvalue Htoken Htail. unfold token_of, first_value.
  rewrite Hheader. cbn. rewrite Hvalue, split_space_split_on.
  change ("Bearer " +:+ token +:+ tail)
    with ("Bearer" +:+ String " "%char (token +:+ tail)).
  by apply split_on_second.
Qed.

(** X13. [getURLDomain] gives the domain name of a URL: for a scheme and a
    domain name without slash, followed by nothing or by a path, it selects
    the domain name. *)
Theorem getURLDomain_selects_the_domain scheme domain rest :
  occurrences "/"%char scheme = 0 ->
  occurrences "/"%char domain = 0 ->
  rest = "" \/ (exists path, rest = String "/"%char path) ->
  Stack.getURLDomain (scheme +:+ "//" +:+ domain +:+ rest) = Some domain.
Proof.
  intros Hscheme Hdomain Hrest. unfold Stack.getURLDomain, Stack.Fn_select, Stack.Fn_split.
  change (scheme +:+ "//" +:+ domain +:+ rest)
    with (scheme +:+ String "/"%char ("" +:+ String "/"%char (domain +:+ rest))).
  rewrite split_on_app, (split_on_whole _ _ Hscheme).
  exact (split_on_second "/"%char "" domain rest eq_refl Hdomain Hrest).
Qed.

(** X14. [getURLDomain] has no value exactly for the strings with fewer than
    two slashes: the selection of index 2 is then out of range. *)
Theorem getURLDomain_needs_two_slashes url :
  Stack.getURLDomain url = None <-> occurrences "/"%char url < 2.
Proof.
  unfold Stack.getURLDomain, Stack.Fn_select, Stack.Fn_split.
  rewrite lookup_ge_None, split_on_length. lia.
Qed.

(** ** The reference base64 codec is a round trip *)

Import Reference.

Ltac Zify.zify_post_hook ::= Z.to_euclidean_division_equations.

Lemma digit_sextet v :
  (v < 64)%N -> sextet (digit v) = Some v /\ Ascii.eqb (digit v) "="%char = false.
Proof.
  intros Hv.
  assert (H : forallb (λ n, bool_decide (sextet (digit (N.of_nat n)) = Some (N.of_nat n))
                            && negb (Ascii.eqb (digit (N.of_nat n)) "="%char))
                (seq 0 64) = true) by (vm_compute; reflexivity).
  rewrite forallb_forall in H. specialize (H (N.to_nat v)).
  rewrite N2Nat.id in H.
  assert (Hin : In (N.to_nat v) (seq 0 64)) by (apply in_seq; lia).
  apply H, andb_prop in Hin as [H1 H2].
  apply bool_decide_eq_true in H1. by apply negb_true_iff in H2.
Qed.

Lemma sextets_digit v rest :
  (v < 64)%N -> sextets (String (digit v) rest) = v :: sextets rest.
Proof. intros Hv. cbn [sextets]. by destruct (digit_sextet v Hv) as [-> ->]. Qed.

Lemma octets_quad a b c d rest :
  octets (a :: b :: c :: d :: rest)
  = String (ascii_of_N (a * 4 + b / 16))
      (String (ascii_of_N (b mod 16 * 16 + c / 4))
         (String (ascii_of_N (c mod 4 * 64 + d)) (octets rest))).
Proof. done. Qed.

Lemma sextets_bounded (x y z : N) :
  (x < 256 -> y < 256 -> z < 256 ->
   x / 4 < 64 /\ x mod 4 * 16 + y / 16 < 64 /\
   y mod 16 * 4 + z / 64 < 64 /\ z mod 64 < 64)%N.
Proof. lia. Qed.

Lemma first_octet (x y : N) :
  (x < 256 -> y < 256 -> x / 4 * 4 + (x mod 4 * 16 + y / 16) / 16 = x)%N.
Proof. lia. Qed.

Lemma second_octet (x y z : N) :
  (x < 256 -> y < 256 -> z < 256 ->
   (x mod 4 * 16 + y / 16) mod 16 * 16 + (y mod 16 * 4 + z / 64) / 4 = y)%N.
Proof. lia. Qed.

Lemma third_octet (y z : N) :
  (y < 256 -> z < 256 -> (y mod 16 * 4 + z / 64) mod 4 * 64 + z mod 64 = z)%N.
Proof. lia. Qed.

(** Decoding the base64 text of [s] gives [s] back, byte for byte. *)
Lemma base64_round_trip s : Buffer_from_base64_toString_utf8 (toString_base64 s) = s.
Proof.
  unfold Buffer_from_base64_toString_utf8.
  remember (String.length s) as n eqn:Hn. revert s Hn.
  induction (lt_wf n) as [n _ IH]. intros s Hn.
  destruct s as [|x [|y [|z rest]]]; [done|..];
    pose proof (N_ascii_bounded x) as Hx.
  - destruct (sextets_bounded (N_of_ascii x) 0 0) as (S1 & S2 & _); [done..|].
    pose proof (first_octet (N_of_ascii x) 0 Hx eq_refl) as E1.
    rewrite N.add_0_r in S2, E1.
    cbn [toString_base64]. do 2 (rewrite sextets_digit by done).
    cbn [sextets Ascii.eqb Bool.eqb octets].
    by rewrite E1, ascii_N_embedding.
  - pose proof (N_ascii_bounded y) as Hy.
    destruct (sextets_bounded (N_of_ascii x) (N_of_ascii y) 0) as (S1 & S2 & S3 & _);
      [done..|].
    pose proof (first_octet _ _ Hx Hy) as E1.
    pose proof (second_octet _ _ 0 Hx Hy eq_refl) as E2.
    rewrite N.add_0_r in S3, E2.
    cbn [toString_base64]. do 3 (rewrite sextets_digit by done).
    cbn [sextets Ascii.eqb Bool.eqb octets].
    by rewrite E1, E2, !ascii_N_embedding.
  - pose proof (N_ascii_bounded y) as Hy. pose proof (N_ascii_bounded z) as Hz.
    destruct (sextets_bounded _ _ _ Hx Hy Hz) as (S1 & S2 & S3 & S4).
    cbn [toString_base64]. do 4 (rewrite sextets_digit by done). rewrite octets_quad.
    rewrite (IH (String.length rest)) by (cbn in Hn; first [lia|done]).
    by rewrite (first_octet _ _ Hx Hy), (second_octet _ _ _ Hx Hy Hz),
         (third_octet _ _ Hy Hz), !ascii_N_embedding.
Qed.

Lemma toString_base64_truthy s : truthy s = true -> truthy (toString_base64 s) = true.
Proof. by destruct s as [|x [|y [|z rest]]]. Qed.

(** On the reference platform, against any world: a non-empty text sent as
    its base64 encoding in a body tagged base64 reaches axios as that text,
    with its byte length as Content-Length. *)
Lemma base64_body_round_trips {S} (w : World S) m event cfRequest original s
    config settlement :
  request_of event = Some cfRequest ->
  CfRequest.body cfRequest
    = Some {| Body.data := toString_base64 original; Body.encoding := "base64" |} ->
  truthy original = true ->
  (config, settlement) ∈ dispatches (trace (run w (handler m event) s)) ->
  Axios.data config = Some original /\
  exists request signed,
    signings (trace (run w (handler m event) s)) = [(sigv4 m, request, Ok signed)] /\
    HttpRequest.body request = Some original /\
    HttpRequest.headers request !! "Content-Length"
      = Some (Number_toString (String.length original)).
Proof.
  unfold handler. intros Hreq Hbody Hne Hin.
  destruct (dispatch_inversion _ _ _ _ _ _ _ _ _ Hin)
    as (cfRequest' & domainName & apiUrl & request & signed
        & Hreq' & _ & _ & Hsign & -> & _).
  assert (cfRequest' = cfRequest) as -> by congruence.
  assert (Hmem : (sigv4 m, request, Ok signed)
                   ∈ signings (trace (run w (handler m event) s)))
    by (unfold handler; rewrite Hsign; left).
  destruct (signing_inversion _ _ _ _ _ _ _ _ _ _ Hmem)
    as (cfRequest' & ? & apiUrl' & contentType & Hreq'' & _ & _ & _ & _ & _ & -> & _).
  assert (cfRequest' = cfRequest) as -> by congruence.
  destruct (with_body_present Buffer_from_base64_toString_utf8 cfRequest
              (signing_options cfRequest apiUrl' contentType) _ Hbody)
    as [Hb Hh].
  { unfold has_body. rewrite Hbody. by apply toString_base64_truthy. }
  cbv zeta in Hb, Hh. cbn [Body.encoding Body.data] in Hb, Hh.
  rewrite String.eqb_refl, base64_round_trip in Hb, Hh. cbn.
  split; [done|]. eexists _, _. split_and!; [done..|].
  by rewrite Hh, lookup_insert_eq.
Qed.

(** ** The handler on explicit events *)

(** The guard is case-sensitive and wants the single space. *)
Example guard_examples :
  token_of get_items = Some "good.jwt" /\
  auth_guard (Some (bearer "good.jwt")) = false /\
  auth_guard (Some [ {| Header.key := None; Header.value := "bearer good.jwt" |} ]) = true /\
  auth_guard (Some [ {| Header.key := None; Header.value := "Bearer" |} ]) = true /\
  auth_guard (Some []) = true /\
  auth_guard None = true.
Proof. by vm_compute. Qed.

(** The reference decoder on the body of [post_item]. *)
Example post_item_body :
  Buffer_from_base64_toString_utf8 "eyJhIjoxfQ=="
  = "{" +:+ quoted "a" +:+ ":1}".
Proof. by vm_compute. Qed.

(** C1. A [GET] with a valid token and no [content-type] header: the
    verification succeeds, then line 80 reads element 0 of an undefined
    header outside both [try] blocks, and the promise of the handler is
    rejected with that [TypeError] instead of resolving to a response. *)
Theorem handler_rejects_request_without_content_type :
  CfRequest.headers get_plain !! "content-type" = None /\
  result (run world (verification (token_of get_plain)) 0) = Ok tt /\
  result (run world (handler loaded (event_of get_plain)) 0)
    = Threw (TypeError "Cannot read properties of undefined (reading '0')").
Proof. by vm_compute. Qed.

(** C8. [GET /items?a=1]: the query string is part of the path that is
    signed, but the URL handed to axios is the [href] of the URL built from
    the domain name and [uri] alone, so the request goes out without it. *)
Theorem query_string_is_signed_but_not_dispatched :
  CfRequest.uri get_items = "/items" /\
  CfRequest.querystring get_items = "a=1" /\
  (λ signing, HttpRequest.path signing.1.2)
    <$> signings (trace (run world (handler loaded (event_of get_items)) 0))
    = ["/items?a=1"] /\
  (λ dispatch, Axios.url dispatch.1)
    <$> dispatches (trace (run world (handler loaded (event_of get_items)) 0))
    = ["https://abc.lambda-url.eu-central-1.on.aws/items"].
Proof. by vm_compute. Qed.

(** Against C6 as stated: two consecutive invocations in one warm process
    fetch the pool id twice. *)
Lemma second_invocation_fetches_again :
  ~ fetch_count "/publisher/user-pool-id"
      (consecutive (cold_start env_at_load) (event_of get_items) (event_of get_items) 0)
    <= 1.
Proof. vm_compute. lia. Qed.

(** Against C7 as stated: after the environment has changed, the signing call
    does not use the credentials the environment holds at that time. *)
Lemma rotated_credentials_are_not_used :
  ~ forall signer request settlement,
      (signer, request, settlement)
        ∈ signings (trace (run world
                     (invoke (setenv env_rotated (cold_start env_at_load))
                        (event_of get_items)) 0)) ->
      SigV4.credentials signer
      = credentials_of (process_env (setenv env_rotated (cold_start env_at_load))).
Proof.
  intros H.
  destruct (signings _) as [|[[signer request] settlement] rest] eqn:E in H.
  - by vm_compute in E.
  - specialize (H signer request settlement (list_elem_of_here _ _)).
    vm_compute in E. injection E as <- _ _ _. by vm_compute in H.
Qed.

(** *** The theorems at explicit inputs *)

Lemma missing_or_malformed_credential_is_forbidden_witness :
  request_of (event_of anonymous) = Some anonymous /\
  missing_or_malformed_credential anonymous /\
  run world (handler loaded (event_of anonymous)) 0
  = {| result := Ok Forbidden; final := 0; trace := [] |}.
Proof.
  assert (H : missing_or_malformed_credential anonymous) by (left; reflexivity).
  split_and!; [reflexivity | exact H |].
  exact (missing_or_malformed_credential_is_forbidden
           URL_new Buffer_from_base64_toString_utf8 JSON_stringify
           world loaded (event_of anonymous) anonymous 0 eq_refl H).
Defined.

Lemma verification_failure_is_forbidden_witness :
  request_of (event_of forged) = Some forged /\
  well_formed_bearer forged /\
  result (run world (verification (token_of forged)) 0)
    = Threw (ServiceError "JwtInvalidSignatureError") /\
  result (run world (handler loaded (event_of forged)) 0) = Ok Forbidden /\
  logs (trace (run world (handler loaded (event_of forged)) 0))
    = [("Token verification failed:", ServiceError "JwtInvalidSignatureError")] /\
  signings (trace (run world (handler loaded (event_of forged)) 0)) = [] /\
  dispatches (trace (run world (handler loaded (event_of forged)) 0)) = [].
Proof.
  assert (W : well_formed_bearer forged).
  { exists {| Header.key := Some "Authorization"; Header.value := "Bearer bad.jwt" |}, [].
    split; reflexivity. }
  assert (F : result (run world (verification (token_of forged)) 0)
              = Threw (ServiceError "JwtInvalidSignatureError")) by reflexivity.
  split_and!; [reflexivity | exact W | exact F | ..];
    apply (verification_failure_is_forbidden
             URL_new Buffer_from_base64_toString_utf8 JSON_stringify
             world loaded (event_of forged) forged 0 _ eq_refl W F).
Defined.

Lemma origin_response_is_returned_witness :
  exists config response,
    (config, Ok response)
      ∈ dispatches (trace (run world (handler loaded (event_of get_items)) 0)) /\
    result (run world (handler loaded (event_of get_items)) 0)
      = Ok {| ProxyResponse.status := "200";
              ProxyResponse.statusDescription := "OK";
              ProxyResponse.body := JSON_stringify (Axios.data_of response) |} /\
    logs (trace (run world (handler loaded (event_of get_items)) 0)) = [].
Proof.
  eexists _, _. split.
  - vm_compute. left.
  - eapply (origin_response_is_returned
              URL_new Buffer_from_base64_toString_utf8 JSON_stringify
              world loaded (event_of get_items) 0).
    vm_compute. left.
Defined.

Lemma transport_failure_is_internal_error_witness :
  exists config,
    (config, Threw (ServiceError "ECONNREFUSED"))
      ∈ dispatches (trace (run world (handler loaded (event_of get_down)) 0)) /\
    result (run world (handler loaded (event_of get_down)) 0)
      = Ok {| ProxyResponse.status := "500";
              ProxyResponse.statusDescription := "Internal Server Error";
              ProxyResponse.body := "Internal Server Error" |} /\
    logs (trace (run world (handler loaded (event_of get_down)) 0))
      = [("An error occurred", ServiceError "ECONNREFUSED")] /\
    Axios.timeout config = 5000%Z.
Proof.
  eexists. split.
  - vm_compute. left.
  - eapply (transport_failure_is_internal_error
              URL_new Buffer_from_base64_toString_utf8 JSON_stringify
              world loaded (event_of get_down) 0).
    vm_compute. left.
Defined.

Lemma get_items_bearer : well_formed_bearer get_items.
Proof.
  exists {| Header.key := Some "Authorization"; Header.value := "Bearer good.jwt" |}, [].
  split; reflexivity.
Defined.

Lemma parameters_are_fetched_by_every_invocation_witness :
  request_of (event_of get_items) = Some get_items /\
  well_formed_bearer get_items /\
  (forall name,
      fetch_count name
        (trace (run world (invoke (cold_start env_at_load) (event_of get_items)) 0)) <= 1) /\
  fetch_count "/publisher/user-pool-id"
    (trace (run world (invoke (cold_start env_at_load) (event_of get_items)) 0)) = 1 /\
  fetch_count "/publisher/user-pool-id"
    (consecutive (cold_start env_at_load) (event_of get_items) (event_of get_items) 0) = 2.
Proof.
  split_and!; [reflexivity | exact get_items_bearer | ..];
    apply (parameters_are_fetched_by_every_invocation
             URL_new Buffer_from_base64_toString_utf8 JSON_stringify
             world (cold_start env_at_load) (event_of get_items) (event_of get_items)
             get_items get_items 0 eq_refl get_items_bearer eq_refl get_items_bearer).
Defined.

Lemma signing_uses_credentials_read_at_load_witness :
  exists signer request settlement,
    (signer, request, settlement)
      ∈ signings (trace (run world
                   (invoke (setenv env_rotated (cold_start env_at_load))
                      (event_of get_items)) 0)) /\
    SigV4.credentials signer = credentials_of env_at_load.
Proof.
  eexists _, _, _. split.
  - vm_compute. left.
  - eapply (signing_uses_credentials_read_at_load
              URL_new Buffer_from_base64_toString_utf8 JSON_stringify
              world env_at_load env_rotated (event_of get_items) 0).
    vm_compute. left.
Defined.


(** The forwarded body of [post_item] and its length. *)
Example post_item_forwarded :
  (λ dispatch, Axios.data dispatch.1)
    <$> dispatches (trace (run world (handler loaded (event_of post_item)) 0))
    = [Some ("{" +:+ quoted "a" +:+ ":1}")] /\
  (λ signing, HttpRequest.headers signing.1.2 !! "Content-Length")
    <$> signings (trace (run world (handler loaded (event_of post_item)) 0))
    = [Some "7"].
Proof. by vm_compute. Qed.

Lemma signing_headers_are_content_type_and_host_witness :
  exists signer request settlement,
    (signer, request, settlement)
      ∈ signings (trace (run world (handler loaded (event_of post_item)) 0)) /\
    exists cfRequest domainName apiUrl contentType,
      request_of (event_of post_item) = Some cfRequest /\
      first_value (CfRequest.headers cfRequest !! "content-type") = Ok contentType /\
      domainName_of cfRequest = Ok domainName /\
      URL_new ("https://" +:+ domainName +:+ CfRequest.uri cfRequest) = Ok apiUrl /\
      HttpRequest.headers request
        = match HttpRequest.body request with
          | Some body =>
              <["Content-Length" := Number_toString (Buffer_byteLength body)]>
                (<["host" := Url.hostname apiUrl]> {["Content-Type" := contentType]})
          | None => <["host" := Url.hostname apiUrl]> {["Content-Type" := contentType]}
          end /\
      (is_Some (HttpRequest.body request) <-> has_body cfRequest = true) /\
      HttpRequest.headers request !! "authorization" = None /\
      (forall config dispatched,
          (config, dispatched)
            ∈ dispatches (trace (run world (handler loaded (event_of post_item)) 0)) ->
          settlement = Ok (Axios.spread config)).
Proof.
  eexists _, _, _. split.
  - vm_compute. left.
  - eapply (signing_headers_are_content_type_and_host
              URL_new Buffer_from_base64_toString_utf8 JSON_stringify
              world loaded (event_of post_item) 0).
    vm_compute. left.
Defined.


(** *** The further properties at explicit inputs *)

Lemma verifier_is_built_from_the_stored_parameters_witness :
  exists verifier token settlement,
    (verifier, token, settlement)
      ∈ verifications (trace (run world (handler loaded (event_of get_items)) 0)) /\
    exists cfRequest pool_answer client_answer pool client,
      request_of (event_of get_items) = Some cfRequest /\
      token = token_of cfRequest /\
      fetch_answers (trace (run world (handler loaded (event_of get_items)) 0))
        = [("/publisher/user-pool-id", Ok pool_answer);
           ("/publisher/user-pool-client-id", Ok client_answer)] /\
      Ssm.Parameter_ pool_answer = Some pool /\
      Ssm.Parameter_ client_answer = Some client /\
      creations (trace (run world (handler loaded (event_of get_items)) 0))
        = [({| Cognito.userPoolId := Ssm.Value pool;
               Cognito.tokenUse := "id";
               Cognito.clientId := Ssm.Value client |}, Ok verifier)] /\
      verifications (trace (run world (handler loaded (event_of get_items)) 0))
        = [(verifier, token, settlement)].
Proof.
  eexists _, _, _. split.
  - vm_compute. left.
  - eapply (verifier_is_built_from_the_stored_parameters
              URL_new Buffer_from_base64_toString_utf8 JSON_stringify
              world loaded (event_of get_items) 0).
    vm_compute. left.
Defined.

Lemma signing_failure_is_internal_error_witness :
  exists signer request,
    (signer, request, Threw (ServiceError "CredentialsProviderError"))
      ∈ signings (trace (run world_without_signer
                           (handler loaded (event_of get_items)) 0)) /\
    result (run world_without_signer (handler loaded (event_of get_items)) 0)
      = Ok InternalServerError /\
    logs (trace (run world_without_signer (handler loaded (event_of get_items)) 0))
      = [("An error occurred", ServiceError "CredentialsProviderError")] /\
    dispatches (trace (run world_without_signer
                         (handler loaded (event_of get_items)) 0)) = [].
Proof.
  eexists _, _. split.
  - vm_compute. left.
  - eapply (signing_failure_is_internal_error
              URL_new Buffer_from_base64_toString_utf8 JSON_stringify
              world_without_signer loaded (event_of get_items) 0).
    vm_compute. left.
Defined.

Lemma response_status_reflects_the_run_witness :
  exists response,
    result (run world (handler loaded (event_of get_items)) 0) = Ok response /\
    (ProxyResponse.status response = "200" ->
     exists config answer,
       dispatches (trace (run world (handler loaded (event_of get_items)) 0))
         = [(config, Ok answer)] /\
       response = OK (JSON_stringify (Axios.data_of answer))) /\
    (ProxyResponse.status response = "403" ->
     signings (trace (run world (handler loaded (event_of get_items)) 0)) = [] /\
     dispatches (trace (run world (handler loaded (event_of get_items)) 0)) = []).
Proof.
  eexists. split.
  - vm_compute. reflexivity.
  - eapply (response_status_reflects_the_run
              URL_new Buffer_from_base64_toString_utf8 JSON_stringify
              world loaded (event_of get_items) 0).
    vm_compute. reflexivity.
Defined.

Lemma handler_resolves_when_the_request_is_forwardable_witness :
  exists domainName apiUrl contentType,
    request_of (event_of get_down) = Some get_down /\
    domainName_of get_down = Ok domainName /\
    URL_new ("https://" +:+ domainName +:+ CfRequest.uri get_down) = Ok apiUrl /\
    first_value (CfRequest.headers get_down !! "content-type") = Ok contentType /\
    exists response,
      result (run world (handler loaded (event_of get_down)) 0) = Ok response /\
      (response = Forbidden \/ response = InternalServerError \/
       exists body, response = OK body).
Proof.
  eexists _, _, _.
  assert (D : domainName_of get_down = Ok "down.lambda-url.eu-central-1.on.aws")
    by reflexivity.
  assert (U : URL_new ("https://" +:+ "down.lambda-url.eu-central-1.on.aws"
                       +:+ CfRequest.uri get_down)
              = Ok {| Url.href := "https://down.lambda-url.eu-central-1.on.aws/items";
                      Url.protocol := "https:";
                      Url.host := "down.lambda-url.eu-central-1.on.aws";
                      Url.hostname := "down.lambda-url.eu-central-1.on.aws";
                      Url.pathname := "/items" |})
    by (vm_compute; reflexivity).
  assert (C : first_value (CfRequest.headers get_down !! "content-type")
              = Ok "application/json") by (vm_compute; reflexivity).
  split_and!; [reflexivity | exact D | exact U | exact C |].
  exact (handler_resolves_when_the_request_is_forwardable
           URL_new Buffer_from_base64_toString_utf8 JSON_stringify
           world loaded (event_of get_down) 0 get_down _ _ _ eq_refl D U C).
Defined.

Lemma rejection_follows_a_successful_verification_witness :
  exists e,
    request_of (event_of get_plain) = Some get_plain /\
    result (run world (handler loaded (event_of get_plain)) 0) = Threw e /\
    well_formed_bearer get_plain /\
    result (run world (verification (token_of get_plain)) 0) = Ok tt /\
    fetches (trace (run world (handler loaded (event_of get_plain)) 0))
      = ["/publisher/user-pool-id"; "/publisher/user-pool-client-id"] /\
    signings (trace (run world (handler loaded (event_of get_plain)) 0)) = [] /\
    dispatches (trace (run world (handler loaded (event_of get_plain)) 0)) = [] /\
    logs (trace (run world (handler loaded (event_of get_plain)) 0)) = [].
Proof.
  eexists.
  assert (R : result (run world (handler loaded (event_of get_plain)) 0)
              = Threw (TypeError "Cannot read properties of undefined (reading '0')"))
    by (vm_compute; reflexivity).
  split; [reflexivity|]. split; [exact R|].
  exact (rejection_follows_a_successful_verification
           URL_new Buffer_from_base64_toString_utf8 JSON_stringify
           world loaded (event_of get_plain) 0 get_plain _ eq_refl R).
Defined.

Lemma signed_request_line_witness :
  exists signer request settlement,
    (signer, request, settlement)
      ∈ signings (trace (run world
                           (handler (load_module env_at_load) (event_of get_items)) 0)) /\
    exists cfRequest domainName apiUrl,
      request_of (event_of get_items) = Some cfRequest /\
      domainName_of cfRequest = Ok domainName /\
      URL_new ("https://" +:+ domainName +:+ CfRequest.uri cfRequest) = Ok apiUrl /\
      SigV4.service signer = "lambda" /\
      SigV4.region signer = "eu-central-1" /\
      HttpRequest.method request = CfRequest.method cfRequest /\
      HttpRequest.hostname request = Url.host apiUrl /\
      HttpRequest.protocol request = Url.protocol apiUrl /\
      HttpRequest.query request = CfRequest.querystring cfRequest /\
      HttpRequest.path request
        = if decide (CfRequest.querystring cfRequest = "")
          then Url.pathname apiUrl
          else Url.pathname apiUrl +:+ "?" +:+ CfRequest.querystring cfRequest.
Proof.
  eexists _, _, _. split.
  - vm_compute. left.
  - eapply (signed_request_line
              URL_new Buffer_from_base64_toString_utf8 JSON_stringify
              world env_at_load (event_of get_items) 0).
    vm_compute. left.
Defined.

Lemma other_encodings_are_forwarded_verbatim_witness :
  exists config settlement,
    request_of (event_of post_text) = Some post_text /\
    CfRequest.body post_text = Some {| Body.data := "hello"; Body.encoding := "text" |} /\
    has_body post_text = true /\
    "text" <> "base64" /\
    (config, settlement)
      ∈ dispatches (trace (run world (handler loaded (event_of post_text)) 0)) /\
    Axios.data config = Some "hello" /\
    exists request signed,
      signings (trace (run world (handler loaded (event_of post_text)) 0))
        = [(sigv4 loaded, request, Ok signed)] /\
      HttpRequest.body request = Some "hello" /\
      HttpRequest.headers request !! "Content-Length"
        = Some (Number_toString (String.length "hello")).
Proof.
  eexists _, _.
  assert (N : "text" <> "base64") by discriminate.
  split_and!; [reflexivity | reflexivity | reflexivity | exact N | vm_compute; left | ..];
    eapply (other_encodings_are_forwarded_verbatim
              URL_new Buffer_from_base64_toString_utf8 JSON_stringify
              world loaded (event_of post_text) post_text
              {| Body.data := "hello"; Body.encoding := "text" |} 0 _ _
              eq_refl eq_refl eq_refl N);
    vm_compute; left.
Defined.

Lemma invocation_depends_on_seven_parts_of_the_request_witness :
  request_of (event_of get_items) = Some get_items /\
  request_of (event_of get_items_with_cookie) = Some get_items_with_cookie /\
  CfRequest.headers get_items <> CfRequest.headers get_items_with_cookie /\
  handler loaded (event_of get_items) = handler loaded (event_of get_items_with_cookie) /\
  run world (handler loaded (event_of get_items)) 0
  = run world (handler loaded (event_of get_items_with_cookie)) 0.
Proof.
  split_and!; [reflexivity | reflexivity | | ..].
  - intros H. apply (f_equal (lookup "cookie")) in H. by vm_compute in H.
  - apply (invocation_depends_on_seven_parts_of_the_request
             URL_new Buffer_from_base64_toString_utf8 JSON_stringify
             world loaded (event_of get_items) (event_of get_items_with_cookie)
             get_items get_items_with_cookie 0); reflexivity.
  - apply (invocation_depends_on_seven_parts_of_the_request
             URL_new Buffer_from_base64_toString_utf8 JSON_stringify
             world loaded (event_of get_items) (event_of get_items_with_cookie)
             get_items get_items_with_cookie 0); reflexivity.
Defined.

Lemma world_as_deployed_rejects_other_names name (served : nat) :
  name ∉ Stack.parameterNames ->
  exists e, (world_as_deployed (ssmClient_send {| Ssm.Name := name |}) served).1 = Threw e.
Proof.
  intros Hname. cbn. rewrite bool_decide_eq_false_2 by done. eauto.
Defined.

Lemma handler_is_forbidden_by_the_deployed_parameter_names_witness :
  (forall name served,
      name ∉ Stack.parameterNames ->
      exists e,
        (world_as_deployed (ssmClient_send {| Ssm.Name := name |}) served).1 = Threw e) /\
  request_of (event_of get_items) = Some get_items /\
  result (run world_as_deployed (handler loaded (event_of get_items)) 0) = Ok Forbidden /\
  creations (trace (run world_as_deployed (handler loaded (event_of get_items)) 0)) = [] /\
  verifications (trace (run world_as_deployed (handler loaded (event_of get_items)) 0)) = [] /\
  signings (trace (run world_as_deployed (handler loaded (event_of get_items)) 0)) = [] /\
  dispatches (trace (run world_as_deployed (handler loaded (event_of get_items)) 0)) = [].
Proof.
  split; [exact world_as_deployed_rejects_other_names|]. split; [reflexivity|].
  exact (handler_is_forbidden_by_the_deployed_parameter_names
           URL_new Buffer_from_base64_toString_utf8 JSON_stringify
           world_as_deployed loaded (event_of get_items) get_items 0
           world_as_deployed_rejects_other_names eq_refl).
Defined.

Lemma bearer_token_is_the_second_word_witness :
  CfRequest.headers get_items_with_comment !! "authorization"
    = Some (bearer "good.jwt issued today") /\
  occurrences " "%char "good.jwt" = 0 /\
  token_of get_items_with_comment = Some "good.jwt".
Proof.
  split_and!; [reflexivity | reflexivity |].
  apply (bearer_token_is_the_second_word get_items_with_comment
           {| Header.key := Some "Authorization";
              Header.value := "Bearer good.jwt issued today" |}
           [] "good.jwt" " issued today");
    [reflexivity | reflexivity | reflexivity | right; by exists "issued today"].
Defined.

Lemma getURLDomain_selects_the_domain_witness :
  occurrences "/"%char "https:" = 0 /\
  occurrences "/"%char "abc.lambda-url.eu-central-1.on.aws" = 0 /\
  Stack.getURLDomain "https://abc.lambda-url.eu-central-1.on.aws/"
  = Some "abc.lambda-url.eu-central-1.on.aws".
Proof.
  split_and!; [reflexivity | reflexivity |].
  apply (getURLDomain_selects_the_domain
           "https:" "abc.lambda-url.eu-central-1.on.aws" "/");
    [reflexivity | reflexivity | right; by exists ""].
Defined.

Lemma origin_request_goes_to_domain_and_uri_witness :
  exists config settlement,
    (config, settlement)
      ∈ dispatches (trace (run world (handler loaded (event_of get_items)) 0)) /\
    exists cfRequest domainName apiUrl,
      request_of (event_of get_items) = Some cfRequest /\
      domainName_of cfRequest = Ok domainName /\
      URL_new ("https://" +:+ domainName +:+ CfRequest.uri cfRequest) = Ok apiUrl /\
      Axios.url config = Url.href apiUrl /\
      Axios.timeout config = 5000%Z /\
      dispatches (trace (run world (handler loaded (event_of get_items)) 0))
        = [(config, settlement)].
Proof.
  eexists _, _. split.
  - vm_compute. left.
  - eapply (origin_request_goes_to_domain_and_uri
              URL_new Buffer_from_base64_toString_utf8 JSON_stringify
              world loaded (event_of get_items) 0).
    vm_compute. left.
Defined.

Lemma signed_request_is_independent_of_the_credential_witness :
  exists signer1 request1 settlement1 signer2 request2 settlement2,
    first_value (CfRequest.headers get_items !! "authorization")
      <> first_value (CfRequest.headers get_items_with_comment !! "authorization") /\
    (signer1, request1, settlement1)
      ∈ signings (trace (run world (handler loaded (event_of get_items)) 0)) /\
    (signer2, request2, settlement2)
      ∈ signings (trace (run world
                           (handler loaded (event_of get_items_with_comment)) 5)) /\
    signer1 = signer2 /\ request1 = request2.
Proof.
  eexists _, _, _, _, _, _. split; [by vm_compute|]. split; [vm_compute; left|].
  split; [vm_compute; left|].
  eapply (signed_request_is_independent_of_the_credential
            URL_new Buffer_from_base64_toString_utf8 JSON_stringify
            world loaded (event_of get_items) (event_of get_items_with_comment)
            get_items get_items_with_comment 0 5);
    first [reflexivity | vm_compute; left].
Defined.

(** Against C4 as stated: the token verifies and the origin answers with an
    HTTP response of status 404; axios rejects it, and the handler returns
    the 500 response instead of 200 with the serialized payload. *)
Lemma origin_404_is_answered_with_500 :
  result (run (with_origin world origin_not_found)
            (verification (token_of get_items)) 0) = Ok tt /\
  (λ dispatch, dispatch.2)
    <$> dispatches (trace (run (with_origin world origin_not_found)
                             (handler loaded (event_of get_items)) 0))
    = [axios_settles
         (HttpResponse {| Axios.status := 404;
                          Axios.data_of := JObject [("message", JString "Not Found")] |})] /\
  result (run (with_origin world origin_not_found)
            (handler loaded (event_of get_items)) 0) = Ok InternalServerError /\
  result (run (with_origin world origin_not_found)
            (handler loaded (event_of get_items)) 0)
    <> Ok (OK (JSON_stringify (JObject [("message", JString "Not Found")]))).
Proof. by vm_compute. Qed.

Lemma origin_response_is_returned_when_axios_accepts_it_witness :
  exists config settlement response,
    (config, settlement)
      ∈ dispatches (trace (run (with_origin world origin_found)
                             (handler loaded (event_of get_items)) 0)) /\
    origin_found config = HttpResponse response /\
    (200 <= Axios.status response < 300)%Z /\
    result (run (with_origin world origin_found) (handler loaded (event_of get_items)) 0)
      = Ok {| ProxyResponse.status := "200";
              ProxyResponse.statusDescription := "OK";
              ProxyResponse.body := JSON_stringify (Axios.data_of response) |} /\
    logs (trace (run (with_origin world origin_found)
                   (handler loaded (event_of get_items)) 0)) = [].
Proof.
  eexists _, _, _.
  assert (Hstatus : (200 <= 200 < 300)%Z) by lia.
  split; [vm_compute; left|]. split; [reflexivity|]. split; [exact Hstatus|].
  eapply (origin_response_is_returned_when_axios_accepts_it
            URL_new Buffer_from_base64_toString_utf8 JSON_stringify
            world origin_found loaded (event_of get_items) 0);
    [vm_compute; left | reflexivity | exact Hstatus].
Defined.
